(** * twocaptcha: a shallow embedding of the 2captcha client

  The Go package [twocaptcha] (file [twocaptcha.go]) is one low-level
  primitive, [apiRequest], and three public operations built on it:
  [SolveRecaptchaV2], [SolveRecaptchaV3] and [ReportBadCaptcha].

  Go values are modelled as follows.
  - [string] and [[]byte] are sequences of bytes: Rocq's [string].
  - [int] is [Z]; the only arithmetic on it is [retries-1] on a positive
    value, which cannot wrap.
  - [time.Duration] is an [int64] count of nanoseconds: a [Z] with the
    two's complement wrap-around of the multiplication written out.
  - [float64] is an IEEE-754 binary64 datum, Stdlib's [spec_float].
  - [map[string]string] is [gmap string string]; [url.Values] is
    [gmap string (list string)].
  - The outside world is a trace of events (sleeps and HTTP round trips),
    threaded through every call; the HTTP transport [c.Client] is an
    oracle answering a request from the history so far.
  - A run-time panic (slice out of range) is an explicit outcome. *)

From Stdlib Require Import ZArith Lia Ascii String Floats.SpecFloat.
From Stdlib Require DecimalString.
From stdpp Require Import base list strings gmap fin_maps sorting.
From Equations Require Import Equations.

Local Open Scope Z_scope.

(** ** Package [strings] and byte slices *)

Module Strings.

(** [strings.Contains(s, substr)]: [substr] occurs at some offset of [s]. *)
Fixpoint Contains (s substr : string) : bool :=
  String.prefix substr s ||
  match s with
  | EmptyString => false
  | String _ s' => Contains s' substr
  end.

(** Outcome of an expression that may panic at run time. *)
Inductive outcome (A : Type) : Type :=
| Done (a : A)
| Panic.
Global Arguments Done {A} a.
Global Arguments Panic {A}.

(** The slice expression [b[n:]]: Go panics unless [n <= len(b)]. *)
Definition slice_from (n : nat) (b : string) : outcome string :=
  if (n <=? String.length b)%nat
  then Done (String.substring n (String.length b - n) b)
  else Panic.

End Strings.

(** ** Package [time] *)

Module Time.

(** [type Duration int64], a count of nanoseconds. *)
Definition Duration := Z.

(** The value an [int64] computation keeps of the mathematical result. *)
Definition wrap64 (z : Z) : Z := (z + 2 ^ 63) mod 2 ^ 64 - 2 ^ 63.

Definition Nanosecond : Duration := 1.
Definition Second : Duration := 1000000000.

(** [a * b] on two run-time [Duration] values. *)
Definition mul (a b : Duration) : Duration := wrap64 (a * b).

(** The pause asked of [time.Sleep(d)], in nanoseconds: "a negative or
    zero duration causes Sleep to return immediately". (The runtime cuts
    short a pause whose end would lie beyond what its 64-bit clock can
    count.) *)
Definition paused (d : Duration) : Z := Z.max 0 d.

End Time.

(** ** Go's [error] values *)

(** An [error] is known by the package that made it and by its message.
    [errors.New] makes the [errorString] ones; the others come from
    [net/http], [net/url] and the response body reader. *)
Inductive error : Type :=
| errorString (msg : string)
| foreignError (pkg : string) (msg : string).

Definition errors_New (text : string) : error := errorString text.

(** [err.Error()] *)
Definition Error (e : error) : string :=
  match e with
  | errorString msg => msg
  | foreignError _ msg => msg
  end.

(** ** Package [net/url]: form values and their encoding *)

Module Url.

(** [type Values map[string][]string] *)
Abbreviation Values := (gmap string (list string)).

(** [v.Add(key, value)]: append [value] to the values of [key]. *)
Definition Add (key value : string) (v : Values) : Values :=
  <[key := default [] (v !! key) ++ [value]]> v.

Definition upperhex (n : N) : ascii :=
  ascii_of_N (if (n <? 10)%N then 48 + n else 55 + n)%N.

Definition in_range (lo hi c : ascii) : bool :=
  ((N_of_ascii lo <=? N_of_ascii c) && (N_of_ascii c <=? N_of_ascii hi))%N.

(** [shouldEscape(c, encodeQueryComponent)]: only the unreserved
    characters of RFC 3986 pass unescaped. *)
Definition shouldEscape (c : ascii) : bool :=
  if in_range "a" "z" c || in_range "A" "Z" c || in_range "0" "9" c then false
  else if bool_decide (c ∈ ["-"; "_"; "."; "~"]%char) then false
  else true.

(** [QueryEscape(s)] *)
Fixpoint QueryEscape (s : string) : string :=
  match s with
  | EmptyString => EmptyString
  | String c s' =>
      if bool_decide (c = " "%char) then String "+" (QueryEscape s')
      else if shouldEscape c then
        String "%" (String (upperhex (N_of_ascii c / 16))
                   (String (upperhex (N_of_ascii c mod 16)) (QueryEscape s')))
      else String c (QueryEscape s')
  end.

(** The bytes [QueryEscape] may write: the unreserved ones, and the [+]
    and [%] of its own escapes. *)
Definition escaped_byte (c : ascii) : bool :=
  negb (shouldEscape c) || bool_decide (c = "+"%char) || bool_decide (c = "%"%char).

Fixpoint all_bytes (P : ascii → bool) (s : string) : bool :=
  match s with
  | EmptyString => true
  | String c s' => P c && all_bytes P s'
  end.

(** [slices.Sort(keys)]: byte-wise lexicographic order. *)
Definition sorted_keys (v : Values) : list string :=
  merge_sort (λ a b, String.leb a b) (map fst (map_to_list v)).

(** The [key=value] pairs of one key, in the order of its values. *)
Definition pairs_of (v : Values) (k : string) : list string :=
  map (λ x, QueryEscape k +:+ "=" +:+ QueryEscape x) (default [] (v !! k)).

(** [v.Encode()]: the pairs sorted by key, joined by [&]. *)
Definition Encode (v : Values) : string :=
  String.concat "&" (concat (map (pairs_of v) (sorted_keys v))).

End Url.

(** ** Package [fmt]: the verb [%.1f] *)

Module Fmt.

Abbreviation float64 := spec_float.

Definition decimal (n : N) : string :=
  DecimalString.NilZero.string_of_uint (N.to_uint n).

(** [m * 2^e * 10] rounded to the nearest integer, ties to even: the
    exact decimal conversion and rounding of [strconv.FormatFloat]. *)
Definition tenths (m : positive) (e : Z) : Z :=
  if 0 <=? e then Z.pos m * 2 ^ e * 10
  else
    let den := 2 ^ (- e) in
    let num := Z.pos m * 10 in
    let q := num / den in
    let r := num mod den in
    if 2 * r <? den then q
    else if den <? 2 * r then q + 1
    else if Z.even q then q else q + 1.

(** Sign, integer digits, point, one fraction digit. *)
Definition fixed1 (neg : bool) (t : Z) : string :=
  (if neg then "-" else "") +:+
  decimal (Z.to_N (t / 10)) +:+ "." +:+ decimal (Z.to_N (t mod 10)).

(** [fmt.Sprintf("%.1f", x)] *)
Definition Sprintf_1f (x : float64) : string :=
  match x with
  | S754_zero s => fixed1 s 0
  | S754_infinity s => if s then "-Inf" else "+Inf"
  | S754_nan => "NaN"
  | S754_finite s m e => fixed1 s (tenths m e)
  end.

(** A positive finite value [m * 2^e] that is at most one. *)
Definition at_most_one (m : positive) (e : Z) : bool :=
  if 0 <=? e then Z.pos m * 2 ^ e <=? 1 else Z.pos m <=? 2 ^ (- e).





End Fmt.

(** ** Package [net/http] and the outside world *)

Module Http.

Record Request : Type := mkRequest {
  Method : string;
  URL : string;
  Header : Url.Values;
  ReqBody : string
}.

(** A response body as [ioutil.ReadAll] finds it. *)
Record Reader : Type := mkReader {
  content : string;
  failure : option error
}.

Record Response : Type := mkResponse { Body : Reader }.

(** [ioutil.ReadAll(r)] *)
Definition ReadAll (r : Reader) : string * option error :=
  (content r, failure r).

(** What the program does to the world. *)
Inductive Event : Type :=
| Sleep (d : Time.Duration)
| RoundTrip (req : Request).

Abbreviation Trace := (list Event).

(** [*http.Client]: the answer to a request may depend on everything
    that happened before it. *)
Record Client : Type := mkClient {
  Do : Trace → Request → Response + error
}.

(** [req.Header.Add(key, value)] *)
Definition Header_Add (key value : string) (req : Request) : Request :=
  mkRequest (Method req) (URL req) (Url.Add key value (Header req)) (ReqBody req).

End Http.

(** ** Package [twocaptcha] *)

Import Strings Http.

(** [ApiURL] is the url of the 2captcha API endpoint. *)
Definition ApiURL : string := "https://2captcha.com/in.php".

(** [ResultURL] is the url of the 2captcha result API endpoint. *)
Definition ResultURL : string := "https://2captcha.com/res.php".

(** [TwoCaptchaClient]: the API key and the HTTP client of the calls.
    The [Client] field is a usable client, as [New] makes it; a nil
    pointer there is outside the model. *)
Record TwoCaptchaClient : Type := mkTwoCaptchaClient {
  ApiKey : string;
  Client : Http.Client
}.

(** [New] creates a [TwoCaptchaClient] instance around
    [http.DefaultClient], which is taken as an argument here. *)
Definition New (DefaultClient : Http.Client) (apiKey : string)
    : TwoCaptchaClient :=
  mkTwoCaptchaClient apiKey DefaultClient.

(** What a Go function of result type [(string, error)] leaves behind:
    its results (or a panic) and the trace extended by its effects. *)
Abbreviation result := (outcome (string * option error) * Trace)%type.

(** [http.NewRequest] fails when [url.Parse] rejects the URL (the method
    [POST] is always valid). The parser is not part of this package and is
    taken as a parameter: [None] when the URL is accepted. *)
Class UrlParser : Type := url_Parse_error : string → option error.

Section TwoCaptcha.

Context {parser : UrlParser}.

(** [http.NewRequest(method, url, strings.NewReader(body))] *)
Definition NewRequest (method url body : string) : Request + error :=
  match url_Parse_error url with
  | Some err => inr err
  | None => inl (mkRequest method url ∅ body)
  end.

(** [apiRequest] sleeps, posts the form and reads the reply; a reply that
    says "not ready" sends it round again with one retry less. *)
Equations? apiRequest (c : TwoCaptchaClient) (URL : string)
    (params : gmap string string) (delay : Time.Duration) (retries : Z)
    (tr : Trace) : result by wf (Z.to_nat retries) lt :=
  apiRequest c URL params delay retries tr with Z_le_gt_dec retries 0 := {
    | left _ =>
        (Done ("", Some (errors_New "Maximum retries exceeded")), tr)
    | right _ =>
        let tr := tr ++ [Sleep (Time.mul delay Time.Second)] in
        let form := map_fold Url.Add (Url.Add "key" (ApiKey c) ∅) params in
        match NewRequest "POST" URL (Url.Encode form) with
        | inr err => (Done ("", Some err), tr)
        | inl req =>
            let req :=
              Header_Add "Content-Type" "application/x-www-form-urlencoded" req in
            let resp := Do (Client c) tr req in
            let tr := tr ++ [RoundTrip req] in
            match resp with
            | inr err => (Done ("", Some err), tr)
            | inl resp =>
                match ReadAll (Body resp) with
                | (_, Some err) => (Done ("", Some err), tr)
                | (body, None) =>
                    if Contains body "CAPCHA_NOT_READY" then
                      apiRequest c URL params delay (retries - 1) tr
                    else if
                      (bool_decide (default "" (params !! "action") = "reportbad")
                       && negb (bool_decide (body = "OK_REPORT_RECORDED")))
                      || (negb (bool_decide (default "" (params !! "action") = "reportbad"))
                          && negb (Contains body "OK|"))
                    then
                      (Done ("", Some (errors_New
                         ("Invalid respponse from 2captcha: " +:+ body))), tr)
                    else
                      match slice_from 3 body with
                      | Done s => (Done (s, None), tr)
                      | Panic => (Panic, tr)
                      end
                end
            end
        end }.
Proof. lia. Qed.

(** [SolveRecaptchaV2] performs a recaptcha v2 solving request and
    returns the solved captcha and the captcha ID. *)
Definition SolveRecaptchaV2 (c : TwoCaptchaClient) (siteURL recaptchaKey : string)
    (delay : Time.Duration) (retries : Z) (tr : Trace)
    : outcome (string * string * option error) * Trace :=
  match
    apiRequest c ApiURL
      {[ "googlekey" := recaptchaKey;
         "pageurl" := siteURL;
         "method" := "userrecaptcha" ]}
      0 3 tr
  with
  | (Panic, tr) => (Panic, tr)
  | (Done (_, Some err), tr) => (Done ("", "", Some err), tr)
  | (Done (captchaId, None), tr) =>
      let tr := tr ++ [Sleep (10 * Time.Second)] in
      match
        apiRequest c ResultURL
          {[ "googlekey" := recaptchaKey;
             "pageurl" := siteURL;
             "method" := "userrecaptcha";
             "id" := captchaId;
             "action" := "get" ]}
          delay retries tr
      with
      | (Panic, tr) => (Panic, tr)
      | (Done (resp, err), tr) => (Done (resp, captchaId, err), tr)
      end
  end.

(** [SolveRecaptchaV3] performs a recaptcha v3 solving request and
    returns the solved captcha. *)
Definition SolveRecaptchaV3 (c : TwoCaptchaClient)
    (siteURL recaptchaKey action : string) (minScore : Fmt.float64)
    (tr : Trace) : result :=
  match
    apiRequest c ApiURL
      {[ "googlekey" := recaptchaKey;
         "pageurl" := siteURL;
         "method" := "userrecaptcha";
         "version" := "v3";
         "action" := action;
         "min_score" := Fmt.Sprintf_1f minScore ]}
      0 3 tr
  with
  | (Panic, tr) => (Panic, tr)
  | (Done (_, Some err), tr) => (Done ("", Some err), tr)
  | (Done (captchaId, None), tr) =>
      apiRequest c ResultURL
        {[ "googlekey" := recaptchaKey;
           "pageurl" := siteURL;
           "method" := "userrecaptcha";
           "id" := captchaId;
           "action" := "get" ]}
        5 20 tr
  end.

(** [ReportBadCaptcha] reports a solution as wrong; only the error of
    the request is returned. *)
Definition ReportBadCaptcha (c : TwoCaptchaClient) (captchaId : string)
    (tr : Trace) : outcome (option error) * Trace :=
  match
    apiRequest c ResultURL
      {[ "id" := captchaId; "action" := "reportbad" ]}
      0 3 tr
  with
  | (Panic, tr) => (Panic, tr)
  | (Done (_, err), tr) => (Done err, tr)
  end.

(** ** Vocabulary of the specification *)

(** The parameters of the three kinds of request, as the public
    operations write them. *)
Definition v2_submit (siteURL recaptchaKey : string) : gmap string string :=
  {[ "googlekey" := recaptchaKey;
     "pageurl" := siteURL;
     "method" := "userrecaptcha" ]}.

Definition v3_submit (siteURL recaptchaKey action : string)
    (minScore : Fmt.float64) : gmap string string :=
  {[ "googlekey" := recaptchaKey;
     "pageurl" := siteURL;
     "method" := "userrecaptcha";
     "version" := "v3";
     "action" := action;
     "min_score" := Fmt.Sprintf_1f minScore ]}.

Definition poll_of (siteURL recaptchaKey captchaId : string)
    : gmap string string :=
  {[ "googlekey" := recaptchaKey;
     "pageurl" := siteURL;
     "method" := "userrecaptcha";
     "id" := captchaId;
     "action" := "get" ]}.

(** The form [apiRequest] posts: the API key, then every parameter. *)
Definition form_of (c : TwoCaptchaClient) (params : gmap string string)
    : Url.Values :=
  map_fold Url.Add (Url.Add "key" (ApiKey c) ∅) params.

(** The same form when Go ranges over the parameters in the order [kvs]:
    [form.Add] is called on one pair after the other. *)
Definition form_in_order (c : TwoCaptchaClient) (kvs : list (string * string))
    : Url.Values :=
  foldl (λ form kv, Url.Add kv.1 kv.2 form) (Url.Add "key" (ApiKey c) ∅) kvs.

(** The request one attempt sends, once [http.NewRequest] accepted it. *)
Definition request_of (c : TwoCaptchaClient) (URL : string)
    (params : gmap string string) : Request :=
  Header_Add "Content-Type" "application/x-www-form-urlencoded"
    (mkRequest "POST" URL ∅ (Url.Encode (form_of c params))).

(** The events of one attempt that got as far as sending. *)
Definition round (c : TwoCaptchaClient) (URL : string)
    (params : gmap string string) (delay : Time.Duration) : Trace :=
  [Sleep (Time.mul delay Time.Second); RoundTrip (request_of c URL params)].

(** The events of one attempt, whether or not the request was built. *)
Definition attempt (c : TwoCaptchaClient) (URL : string)
    (params : gmap string string) (delay : Time.Duration) : Trace :=
  match url_Parse_error URL with
  | Some _ => [Sleep (Time.mul delay Time.Second)]
  | None => round c URL params delay
  end.

(** The body an attempt begun at trace [tr] reads, when building,
    sending and reading all go well. *)
Definition reply (c : TwoCaptchaClient) (URL : string)
    (params : gmap string string) (delay : Time.Duration) (tr : Trace)
    : option string :=
  match url_Parse_error URL with
  | Some _ => None
  | None =>
      match Do (Client c) (tr ++ [Sleep (Time.mul delay Time.Second)])
               (request_of c URL params) with
      | inr _ => None
      | inl resp =>
          match ReadAll (Body resp) with
          | (body, None) => Some body
          | (_, Some _) => None
          end
      end
  end.

(** The trace after [n] attempts in a row, begun at [tr], that were all
    answered "not ready"; [None] when one of them was not. *)
Fixpoint not_ready_rounds (n : nat) (c : TwoCaptchaClient) (URL : string)
    (params : gmap string string) (delay : Time.Duration) (tr : Trace)
    : option Trace :=
  match n with
  | O => Some tr
  | S n' =>
      match reply c URL params delay tr with
      | Some body =>
          if Contains body "CAPCHA_NOT_READY"
          then not_ready_rounds n' c URL params delay
                 (tr ++ round c URL params delay)
          else None
      | None => None
      end
  end.

(** The operation kind of a request, as [apiRequest] tells it. *)
Definition is_report_bad (params : gmap string string) : bool :=
  bool_decide (default "" (params !! "action") = "reportbad").

(** The success shape of a body for the operation kind. *)
Definition accepted (params : gmap string string) (body : string) : bool :=
  if is_report_bad params
  then bool_decide (body = "OK_REPORT_RECORDED")
  else Contains body "OK|".

(** The error of an unexpected body. *)
Definition invalid_response (body : string) : error :=
  errors_New ("Invalid respponse from 2captcha: " +:+ body).

(** What "one additional request is sent" says of a call begun at [tr]:
    its trace goes on with two attempts, each the same sleep followed by
    the same request. *)
Definition retry_sends_again (c : TwoCaptchaClient) (URL : string)
    (params : gmap string string) (delay : Time.Duration) (retries : Z)
    (tr : Trace) : Prop :=
  ∃ rest, snd (apiRequest c URL params delay retries tr)
          = tr ++ round c URL params delay ++ round c URL params delay ++ rest.

(** How many requests a trace holds. *)
Fixpoint requests (tr : Trace) : nat :=
  match tr with
  | [] => O
  | RoundTrip _ :: tr' => S (requests tr')
  | Sleep _ :: tr' => requests tr'
  end.

(** The arguments of the calls of [time.Sleep] in a trace, in order. *)
Fixpoint sleeps (tr : Trace) : list Time.Duration :=
  match tr with
  | [] => []
  | Sleep d :: tr' => d :: sleeps tr'
  | RoundTrip _ :: tr' => sleeps tr'
  end.

(** The time a trace spends asleep, in nanoseconds. *)
Definition paused_total (tr : Trace) : Z :=
  foldr (λ d acc, Time.paused d + acc) 0 (sleeps tr).

End TwoCaptcha.

(** ** Small worlds to run the client in *)

Module Examples.

(** A URL parser that accepts every URL, and one that accepts none. *)
Definition accept_all : UrlParser := λ _, None.
Definition reject_all : UrlParser :=
  λ _, Some (foreignError "net/url" "invalid URL").

Definition refused : error := foreignError "net/http" "connection refused".
Definition cut_short : error := foreignError "io" "unexpected EOF".

(** A server that answers the n-th request with the n-th body of a
    script, and refuses the connection once the script is over. *)
Definition scripted (bodies : list string) : Http.Client :=
  mkClient (λ tr _,
    match bodies !! requests tr with
    | Some body => inl (mkResponse (mkReader body None))
    | None => inr refused
    end).

(** A server whose replies break off while they are read. *)
Definition breaking : Http.Client :=
  mkClient (λ _ _, inl (mkResponse (mkReader "OK|" (Some cut_short)))).

Definition client_of (bodies : list string) : TwoCaptchaClient :=
  mkTwoCaptchaClient "KEY" (scripted bodies).

Definition poll_params : gmap string string :=
  {[ "id" := "42"; "action" := "get" ]}.

Definition report_params : gmap string string :=
  {[ "id" := "42"; "action" := "reportbad" ]}.

(** The [float64] nearest to 0.95, a little below it. *)
Definition score_095 : Fmt.float64 :=
  S754_finite false 8556839292003942 (-53).

End Examples.

(** ** Facts about [strings.Contains] and slices *)

Module StringFacts.

Lemma prefix_length a s :
  String.prefix a s = true → (String.length a <= String.length s)%nat.
Proof.
  revert a. induction s as [| c s IH]; intros [| d a]; cbn;
    try lia; try discriminate.
  destruct (ascii_dec d c); [| discriminate].
  intros H. apply IH in H. lia.
Qed.

Lemma prefix_refl s : String.prefix s s = true.
Proof.
  induction s as [| c s IH]; [reflexivity |].
  simpl. destruct (ascii_dec c c); [exact IH | congruence].
Qed.

Lemma prefix_append a b : String.prefix a (a +:+ b) = true.
Proof.
  induction a as [| c a IH]; [destruct b; reflexivity |].
  simpl. destruct (ascii_dec c c); [exact IH | congruence].
Qed.

Lemma Contains_length s sub :
  Contains s sub = true → (String.length sub <= String.length s)%nat.
Proof.
  induction s as [| c s IH]; cbn [Contains]; intros H.
  - rewrite orb_false_r in H. apply prefix_length in H. exact H.
  - apply orb_true_iff in H as [H | H].
    + apply prefix_length in H. exact H.
    + apply IH in H. cbn. lia.
Qed.

Lemma Contains_prefix s sub :
  String.prefix sub s = true → Contains s sub = true.
Proof. intros H. destruct s; cbn [Contains]; rewrite H; reflexivity. Qed.

(** [Contains] finds exactly the strings that occur somewhere inside. *)
Lemma Contains_spec s sub :
  Contains s sub = true ↔ ∃ before after, s = before +:+ sub +:+ after.
Proof.
  split.
  - induction s as [| c s IH]; cbn [Contains]; intros H.
    + rewrite orb_false_r in H. destruct sub; [| discriminate].
      exists "", "". reflexivity.
    + apply orb_true_iff in H as [H | H].
      * exists "". cbn [String.append].
        clear IH. revert H. generalize (String c s) as t. clear.
        induction sub as [| d sub IH]; intros t H.
        { exists t. reflexivity. }
        destruct t as [| e t]; [discriminate |]. cbn in H.
        destruct (ascii_dec d e) as [-> |]; [| discriminate].
        destruct (IH t H) as [after ->]. exists after. reflexivity.
      * destruct (IH H) as (before & after & ->).
        exists (String c before), after. reflexivity.
  - intros (before & after & ->).
    induction before as [| c before IH].
    + apply Contains_prefix. exact (prefix_append sub after).
    + change (Contains (String c (before +:+ sub +:+ after)) sub = true).
      cbn [Contains]. rewrite IH. apply orb_true_r.
Qed.

Lemma append_empty_r s : s +:+ "" = s.
Proof.
  induction s as [| c s IH]; [reflexivity |].
  change (String c (s +:+ "") = String c s). rewrite IH. reflexivity.
Qed.

Lemma Contains_append_r a s : Contains (a +:+ s) s = true.
Proof.
  apply Contains_spec. exists a, "". rewrite append_empty_r. reflexivity.
Qed.

Lemma slice_from_in_bounds n b :
  (n <= String.length b)%nat →
  slice_from n b = Done (String.substring n (String.length b - n) b).
Proof.
  intros H. unfold slice_from.
  destruct (Nat.leb_spec n (String.length b)); [reflexivity | lia].
Qed.

End StringFacts.

(** ** Facts about the verb [%.1f] *)

Module FmtFacts.

Import Fmt DecimalString.










(** The written tenths are a nearest integer to ten times the value. *)
Lemma tenths_nearest m e :
  e < 0 →
  2 * Z.abs (tenths m e * 2 ^ (- e) - Z.pos m * 10) <= 2 ^ (- e).
Proof.
  intros He. unfold tenths. destruct (Z.leb_spec 0 e) as [| _]; [lia |].
  cbn zeta.
  assert (Hden : 0 < 2 ^ (- e)) by (apply Z.pow_pos_nonneg; lia).
  pose proof (Z.div_mod (Z.pos m * 10) (2 ^ (- e)) ltac:(lia)) as Hdm.
  pose proof (Z.mod_pos_bound (Z.pos m * 10) (2 ^ (- e)) Hden) as Hr.
  set (den := 2 ^ (- e)) in *. set (num := Z.pos m * 10) in *.
  set (q := num / den) in *. set (r := num mod den) in *.
  destruct (Z.ltb_spec (2 * r) den); [lia |].
  destruct (Z.ltb_spec den (2 * r)); [lia |].
  destruct (Z.even q); lia.
Qed.

(** Halfway between two tenths, the even one is written. *)
Lemma tenths_tie_even m e :
  e < 0 →
  2 * ((Z.pos m * 10) mod 2 ^ (- e)) = 2 ^ (- e) →
  Z.even (tenths m e) = true.
Proof.
  intros He Htie. unfold tenths. destruct (Z.leb_spec 0 e) as [| _]; [lia |].
  cbn zeta. rewrite Htie, Z.ltb_irrefl.
  destruct (Z.even (Z.pos m * 10 / 2 ^ (- e))) eqn:Hq; [exact Hq |].
  rewrite Z.even_add, Hq. reflexivity.
Qed.

Example Sprintf_1f_095 :
  Sprintf_1f (S754_finite false 8556839292003942 (-53)) = "0.9".
Proof. reflexivity. Qed.

Example Sprintf_1f_quarter : Sprintf_1f (S754_finite false 1 (-2)) = "0.2".
Proof. reflexivity. Qed.

Example Sprintf_1f_three_quarters :
  Sprintf_1f (S754_finite true 3 (-2)) = "-0.8".
Proof. reflexivity. Qed.

Example Sprintf_1f_one : Sprintf_1f (S754_finite false 1 0) = "1.0".
Proof. reflexivity. Qed.

Example Sprintf_1f_minus_zero : Sprintf_1f (S754_zero true) = "-0.0".
Proof. reflexivity. Qed.

Example Sprintf_1f_infinity : Sprintf_1f (S754_infinity false) = "+Inf".
Proof. reflexivity. Qed.

Lemma tenths_exact m e : 0 <= e → tenths m e = Z.pos m * 2 ^ e * 10.
Proof.
  intros He. unfold tenths. destruct (Z.leb_spec 0 e); [reflexivity | lia].
Qed.

End FmtFacts.

(** ** The posted form *)

Module FormFacts.

(** Go ranges over [params] in no fixed order; the form is the same in
    every order: the API key comes first under [key], and every parameter
    adds its one value under its own name. *)
Lemma form_of_lookup c (params : gmap string string) k :
  form_of c params !! k
  = if decide (k = "key")
    then Some (ApiKey c :: option_list (params !! "key"))
    else (λ v, [v]) <$> params !! k.
Proof.
  unfold form_of. revert k.
  apply (map_fold_weak_ind
    (λ (r : Url.Values) (m : gmap string string), ∀ k,
       r !! k = if decide (k = "key")
                then Some (ApiKey c :: option_list (m !! "key"))
                else (λ v, [v]) <$> m !! k)).
  - intros k. unfold Url.Add. rewrite lookup_empty.
    destruct (decide (k = "key")) as [-> | Hk].
    + rewrite lookup_insert_eq. reflexivity.
    + rewrite lookup_insert_ne, !lookup_empty by congruence. reflexivity.
  - intros i x m r Hi IH k. unfold Url.Add.
    destruct (decide (k = i)) as [-> | Hki].
    + rewrite !lookup_insert_eq, IH.
      destruct (decide (i = "key")) as [-> |]; rewrite Hi; [| reflexivity].
      rewrite lookup_insert_eq. reflexivity.
    + rewrite lookup_insert_ne, IH by congruence.
      destruct (decide (k = "key")) as [-> |].
      * rewrite lookup_insert_ne by congruence. reflexivity.
      * rewrite lookup_insert_ne by congruence. reflexivity.
Qed.

Example Encode_poll :
  Url.Encode (form_of (mkTwoCaptchaClient "KEY" Examples.breaking)
                (poll_of "https://example.com/a b" "site&key" "42"))
  = "action=get&googlekey=site%26key&id=42&key=KEY&method=userrecaptcha&pageurl=https%3A%2F%2Fexample.com%2Fa+b".
Proof. vm_compute. reflexivity. Qed.

End FormFacts.

(** ** The two cases of [apiRequest] *)

Section Properties.

Context {parser : UrlParser}.

Lemma apiRequest_exhausted c URL params delay retries tr :
  retries <= 0 →
  apiRequest c URL params delay retries tr
  = (Done ("", Some (errors_New "Maximum retries exceeded")), tr).
Proof.
  intros Hle. rewrite apiRequest_equation_1.
  destruct (Z_le_gt_dec retries 0) as [Hle' | Hgt]; [reflexivity | lia].
Qed.

Lemma apiRequest_attempt c URL params delay retries tr :
  retries > 0 →
  apiRequest c URL params delay retries tr
  = let tr1 := tr ++ [Sleep (Time.mul delay Time.Second)] in
    match url_Parse_error URL with
    | Some err => (Done ("", Some err), tr1)
    | None =>
        let tr2 := tr ++ round c URL params delay in
        match Do (Client c) tr1 (request_of c URL params) with
        | inr err => (Done ("", Some err), tr2)
        | inl resp =>
            match ReadAll (Body resp) with
            | (_, Some err) => (Done ("", Some err), tr2)
            | (body, None) =>
                if Contains body "CAPCHA_NOT_READY" then
                  apiRequest c URL params delay (retries - 1) tr2
                else if accepted params body then
                  match slice_from 3 body with
                  | Done s => (Done (s, None), tr2)
                  | Panic => (Panic, tr2)
                  end
                else (Done ("", Some (invalid_response body)), tr2)
            end
        end
    end.
Proof.
  intros Hgt. rewrite apiRequest_equation_1.
  destruct (Z_le_gt_dec retries 0) as [Hle | Hgt']; [lia |].
  cbn zeta. unfold apiRequest_unfold_clause_1, NewRequest.
  destruct (url_Parse_error URL) as [err |]; [reflexivity |].
  cbn zeta. fold (form_of c params).
  change (Header_Add _ _ _) with (request_of c URL params).
  unfold round. rewrite <- (assoc_L (++)). cbn [app].
  destruct (Do _ _ _) as [resp | err]; [| reflexivity].
  destruct (ReadAll _) as [body [err |]]; [reflexivity |].
  destruct (Contains body "CAPCHA_NOT_READY"); [reflexivity |].
  unfold accepted, is_report_bad, invalid_response.
  destruct (bool_decide (default "" (params !! "action") = "reportbad"));
    [destruct (bool_decide (body = "OK_REPORT_RECORDED"))
    | destruct (Contains body "OK|")]; reflexivity.
Qed.

Lemma apiRequest_reply c URL params delay retries tr body :
  retries > 0 →
  reply c URL params delay tr = Some body →
  apiRequest c URL params delay retries tr
  = let tr2 := tr ++ round c URL params delay in
    if Contains body "CAPCHA_NOT_READY" then
      apiRequest c URL params delay (retries - 1) tr2
    else if accepted params body then
      match slice_from 3 body with
      | Done s => (Done (s, None), tr2)
      | Panic => (Panic, tr2)
      end
    else (Done ("", Some (invalid_response body)), tr2).
Proof.
  intros Hgt Hreply. rewrite apiRequest_attempt by assumption.
  unfold reply in Hreply. cbn zeta.
  destruct (url_Parse_error URL); [discriminate |].
  destruct (Do _ _ _) as [resp | err]; [| discriminate].
  destruct (ReadAll _) as [b [err |]]; [discriminate |].
  injection Hreply as ->. reflexivity.
Qed.

(** Induction on the retry budget, the way [apiRequest] recurses. *)
Lemma retries_ind (P : Z → Prop) :
  (∀ r, r <= 0 → P r) →
  (∀ r, r > 0 → P (r - 1) → P r) →
  ∀ r, P r.
Proof.
  intros Hstop Hstep r.
  destruct (Z_le_gt_dec r 0) as [Hle | Hgt]; [auto |].
  assert (Hnat : ∀ n : nat, P (Z.of_nat n)).
  { induction n as [| n IH]; [apply Hstop; lia |].
    apply Hstep; [lia |].
    replace (Z.of_nat (S n) - 1) with (Z.of_nat n) by lia. exact IH. }
  rewrite <- (Z2Nat.id r) by lia. apply Hnat.
Qed.

(** A body of the success shape has the three bytes the slice drops. *)
Lemma accepted_length params body :
  accepted params body = true → (3 <= String.length body)%nat.
Proof.
  unfold accepted. destruct (is_report_bad params); intros H.
  - apply bool_decide_eq_true in H. subst body. cbn. lia.
  - apply StringFacts.Contains_length in H. exact H.
Qed.

(** [apiRequest] returns for every budget, and never by a panic. *)
Lemma apiRequest_returns c URL params delay retries tr :
  ∃ r, fst (apiRequest c URL params delay retries tr) = Done r.
Proof.
  revert tr. pattern retries. apply retries_ind; clear retries.
  - intros r Hle tr. rewrite apiRequest_exhausted by assumption. eauto.
  - intros r Hgt IH tr. rewrite apiRequest_attempt by assumption. cbn zeta.
    destruct (url_Parse_error URL); [eauto |].
    destruct (Do _ _ _) as [resp | err]; [| eauto].
    destruct (ReadAll _) as [body [err |]]; [eauto |].
    destruct (Contains body "CAPCHA_NOT_READY"); [apply IH |].
    destruct (accepted params body) eqn:Hacc; [| eauto].
    rewrite StringFacts.slice_from_in_bounds by (eapply accepted_length; eauto).
    eauto.
Qed.

(** Attempts answered "not ready" cost one retry each and nothing else. *)
Lemma apiRequest_not_ready_rounds n c URL params delay retries tr tr' :
  not_ready_rounds n c URL params delay tr = Some tr' →
  Z.of_nat n <= retries →
  apiRequest c URL params delay retries tr
  = apiRequest c URL params delay (retries - Z.of_nat n) tr'.
Proof.
  revert retries tr. induction n as [| n IH]; intros retries tr Hrounds Hle.
  - injection Hrounds as ->. f_equal. lia.
  - cbn [not_ready_rounds] in Hrounds.
    destruct (reply c URL params delay tr) as [body |] eqn:Hreply;
      [| discriminate].
    destruct (Contains body "CAPCHA_NOT_READY") eqn:Hnr; [| discriminate].
    rewrite (apiRequest_reply _ _ _ _ _ _ body) by (assumption || lia).
    cbn zeta. rewrite Hnr. rewrite (IH _ _ Hrounds) by lia. f_equal. lia.
Qed.

(** The trace of [apiRequest] grows by whole attempts, no more of them
    than the budget allows. *)
Lemma apiRequest_trace c URL params delay retries tr :
  ∃ k : nat,
    Z.of_nat k <= Z.max 0 retries ∧
    (retries > 0 → (1 <= k)%nat) ∧
    snd (apiRequest c URL params delay retries tr)
    = tr ++ concat (replicate k (attempt c URL params delay)).
Proof.
  revert tr. pattern retries. apply retries_ind; clear retries.
  - intros r Hle tr. rewrite apiRequest_exhausted by assumption.
    exists O. split; [lia |]. split; [lia |].
    cbn. rewrite app_nil_r. reflexivity.
  - intros r Hgt IH tr. rewrite apiRequest_attempt by assumption. cbn zeta.
    assert (Hone : ∃ k : nat, Z.of_nat k <= Z.max 0 r ∧
              (r > 0 → (1 <= k)%nat) ∧
              tr ++ attempt c URL params delay
              = tr ++ concat (replicate k (attempt c URL params delay))).
    { exists 1%nat. split; [lia |]. split; [lia |].
      cbn. rewrite app_nil_r. reflexivity. }
    unfold attempt in *.
    destruct (url_Parse_error URL); [exact Hone |].
    destruct (Do _ _ _) as [resp | err]; [| exact Hone].
    destruct (ReadAll _) as [body [err |]]; [exact Hone |].
    destruct (Contains body "CAPCHA_NOT_READY").
    + destruct (IH (tr ++ round c URL params delay)) as (k & Hk & _ & ->).
      exists (S k). split; [lia |]. split; [lia |].
      cbn [replicate concat]. rewrite (assoc_L (++)). reflexivity.
    + destruct (accepted params body); [| exact Hone].
      destruct (slice_from 3 body); exact Hone.
Qed.

(** A call with retries left begins by sleeping. *)
Lemma apiRequest_first_sleep c URL params delay retries tr :
  retries > 0 →
  ∃ rest, snd (apiRequest c URL params delay retries tr)
          = tr ++ Sleep (Time.mul delay Time.Second) :: rest.
Proof.
  intros Hgt.
  destruct (apiRequest_trace c URL params delay retries tr) as (k & _ & Hk & ->).
  destruct k as [| k]; [specialize (Hk Hgt); lia |].
  cbn [replicate concat]. unfold attempt, round.
  destruct (url_Parse_error URL); eexists; reflexivity.
Qed.

(** A product that fits in 64 bits is the product. *)
Lemma mul_in_range a b :
  - 2 ^ 63 <= a * b < 2 ^ 63 → Time.mul a b = a * b.
Proof.
  intros H. unfold Time.mul, Time.wrap64.
  rewrite Z.mod_small by lia. lia.
Qed.

(** An attempt whose URL is accepted leaves its sleep and its request. *)
Lemma apiRequest_first_round c URL params delay retries tr :
  retries > 0 →
  url_Parse_error URL = None →
  ∃ rest, snd (apiRequest c URL params delay retries tr)
          = tr ++ round c URL params delay ++ rest.
Proof.
  intros Hgt Hurl. rewrite apiRequest_attempt by assumption. cbn zeta.
  rewrite Hurl.
  assert (Hone : ∃ rest, tr ++ round c URL params delay
                         = tr ++ round c URL params delay ++ rest).
  { exists []. rewrite app_nil_r. reflexivity. }
  destruct (Do _ _ _) as [resp | err]; [| exact Hone].
  destruct (ReadAll _) as [body [err |]]; [exact Hone |].
  destruct (Contains body "CAPCHA_NOT_READY").
  - destruct (apiRequest_trace c URL params delay (retries - 1)
                (tr ++ round c URL params delay)) as (k & _ & _ & ->).
    eexists. rewrite <- (assoc_L (++)). reflexivity.
  - destruct (accepted params body); [| exact Hone].
    destruct (slice_from 3 body); exact Hone.
Qed.

Lemma reply_url_accepted c URL params delay tr body :
  reply c URL params delay tr = Some body → url_Parse_error URL = None.
Proof. unfold reply. destruct (url_Parse_error URL); [discriminate | reflexivity]. Qed.

(** ** The low-level primitive *)

(** C1: called with a retry count of zero or less, [apiRequest] fails at
    once with the error "Maximum retries exceeded" and leaves the trace as
    it found it: no sleep and no request. *)
Theorem apiRequest_retries_exceeded c URL params delay retries tr :
  retries <= 0 →
  apiRequest c URL params delay retries tr
  = (Done ("", Some (errors_New "Maximum retries exceeded")), tr).
Proof. apply apiRequest_exhausted. Qed.

(** C2, as amended: when an attempt with [retries > 0] is answered "not
    ready", the call goes on as the same call (same URL, parameters and
    delay) with one retry less, after exactly the sleep and the request of
    that attempt. With [retries > 1] one more request follows, the same
    request after the same sleep; with [retries = 1] none does, and the
    call fails with the retries-exceeded error. *)
Theorem apiRequest_not_ready c URL params delay retries tr body :
  retries > 0 →
  reply c URL params delay tr = Some body →
  Contains body "CAPCHA_NOT_READY" = true →
  apiRequest c URL params delay retries tr
  = apiRequest c URL params delay (retries - 1) (tr ++ round c URL params delay)
  ∧ (retries > 1 → retry_sends_again c URL params delay retries tr)
  ∧ (retries = 1 →
     apiRequest c URL params delay retries tr
     = (Done ("", Some (errors_New "Maximum retries exceeded")),
        tr ++ round c URL params delay)).
Proof.
  intros Hgt Hreply Hnr.
  assert (Hstep : apiRequest c URL params delay retries tr
                  = apiRequest c URL params delay (retries - 1)
                      (tr ++ round c URL params delay)).
  { rewrite (apiRequest_reply _ _ _ _ _ _ body) by assumption.
    cbn zeta. rewrite Hnr. reflexivity. }
  split; [exact Hstep |]. split.
  - intros Hmore. unfold retry_sends_again. rewrite Hstep.
    destruct (apiRequest_first_round c URL params delay (retries - 1)
                (tr ++ round c URL params delay)) as (rest & ->).
    { lia. } { eapply reply_url_accepted; eassumption. }
    exists rest. rewrite <- (assoc_L (++)). reflexivity.
  - intros ->. rewrite Hstep. apply apiRequest_exhausted. lia.
Qed.

(** C3: when the request is not a report-bad one and the body read does
    not contain [CAPCHA_NOT_READY] but contains [OK|], [apiRequest]
    succeeds with the body less its first three bytes; of [OK|abc123] that
    leaves [abc123]. *)
Theorem apiRequest_solved c URL params delay retries tr body :
  retries > 0 →
  is_report_bad params = false →
  reply c URL params delay tr = Some body →
  Contains body "CAPCHA_NOT_READY" = false →
  Contains body "OK|" = true →
  apiRequest c URL params delay retries tr
  = (Done (String.substring 3 (String.length body - 3) body, None),
     tr ++ round c URL params delay)
  ∧ (body = "OK|abc123" →
     fst (apiRequest c URL params delay retries tr) = Done ("abc123", None)).
Proof.
  intros Hgt Hkind Hreply Hnr Hok.
  assert (Hrun : apiRequest c URL params delay retries tr
    = (Done (String.substring 3 (String.length body - 3) body, None),
       tr ++ round c URL params delay)).
  { rewrite (apiRequest_reply _ _ _ _ _ _ body) by assumption.
    cbn zeta. rewrite Hnr. unfold accepted. rewrite Hkind, Hok.
    rewrite StringFacts.slice_from_in_bounds
      by (apply StringFacts.Contains_length in Hok; exact Hok).
    reflexivity. }
  split; [exact Hrun |]. intros ->. rewrite Hrun. reflexivity.
Qed.

(** C7: a body that is neither "not ready" nor of the success shape of
    its operation kind makes [apiRequest] fail with an error whose message
    ends with that body, byte for byte. *)
Theorem apiRequest_unexpected_body c URL params delay retries tr body :
  retries > 0 →
  reply c URL params delay tr = Some body →
  Contains body "CAPCHA_NOT_READY" = false →
  accepted params body = false →
  ∃ err,
    apiRequest c URL params delay retries tr
    = (Done ("", Some err), tr ++ round c URL params delay)
    ∧ Error err = "Invalid respponse from 2captcha: " +:+ body
    ∧ Contains (Error err) body = true.
Proof.
  intros Hgt Hreply Hnr Hshape. exists (invalid_response body).
  split; [| split].
  - rewrite (apiRequest_reply _ _ _ _ _ _ body) by assumption.
    cbn zeta. rewrite Hnr, Hshape. reflexivity.
  - reflexivity.
  - apply StringFacts.Contains_append_r.
Qed.

(** C8: an error from building the request, from sending it or from
    reading the reply is what [apiRequest] returns, as it is, and the call
    ends there: after the one sleep (and the request, if it was built),
    nothing more is slept or sent. *)
Theorem apiRequest_transport_error c URL params delay retries tr err tr' :
  retries > 0 →
  (url_Parse_error URL = Some err
   ∧ tr' = tr ++ [Sleep (Time.mul delay Time.Second)])
  ∨ (url_Parse_error URL = None
     ∧ tr' = tr ++ round c URL params delay
     ∧ (Do (Client c) (tr ++ [Sleep (Time.mul delay Time.Second)])
           (request_of c URL params) = inr err
        ∨ ∃ resp data,
            Do (Client c) (tr ++ [Sleep (Time.mul delay Time.Second)])
               (request_of c URL params) = inl resp
            ∧ ReadAll (Body resp) = (data, Some err))) →
  apiRequest c URL params delay retries tr = (Done ("", Some err), tr').
Proof.
  intros Hgt Hfail. rewrite apiRequest_attempt by assumption. cbn zeta.
  destruct Hfail as [[Hurl ->] | (Hurl & -> & [Hdo | (resp & data & Hdo & Hread)])];
    rewrite Hurl; [reflexivity | |]; rewrite Hdo; [reflexivity |].
  rewrite Hread. reflexivity.
Qed.

(** A payload is always what the slice left of an accepted body. *)
Lemma apiRequest_success_body c URL params delay retries tr s :
  fst (apiRequest c URL params delay retries tr) = Done (s, None) →
  ∃ body, accepted params body = true ∧ slice_from 3 body = Done s.
Proof.
  revert tr. pattern retries. apply retries_ind; clear retries.
  - intros r Hle tr. rewrite apiRequest_exhausted by assumption. discriminate.
  - intros r Hgt IH tr. rewrite apiRequest_attempt by assumption. cbn zeta.
    destruct (url_Parse_error URL); [discriminate |].
    destruct (Do _ _ _) as [resp | err]; [| discriminate].
    destruct (ReadAll _) as [body [err |]]; [discriminate |].
    destruct (Contains body "CAPCHA_NOT_READY"); [apply IH |].
    destruct (accepted params body) eqn:Hacc; [| discriminate].
    destruct (slice_from 3 body) as [s' |] eqn:Hslice; [| discriminate].
    intros [= ->]. eauto.
Qed.

(** C10: [apiRequest] never panics. A body that reaches the success
    return has passed the check of its operation kind, so it holds the
    three bytes [OK|] or is the eighteen bytes [OK_REPORT_RECORDED]; either
    way [body[3:]] is in bounds. *)
Theorem apiRequest_slice_in_bounds c URL params delay retries tr :
  (∃ r, fst (apiRequest c URL params delay retries tr) = Done r)
  ∧ (∀ s, fst (apiRequest c URL params delay retries tr) = Done (s, None) →
       ∃ body, accepted params body = true
               ∧ (3 <= String.length body)%nat
               ∧ slice_from 3 body = Done s)
  ∧ (∀ body, accepted params body = true →
       (3 <= String.length body)%nat
       ∧ slice_from 3 body
         = Done (String.substring 3 (String.length body - 3) body))
  ∧ String.length "OK|" = 3%nat
  ∧ String.length "OK_REPORT_RECORDED" = 18%nat.
Proof.
  split; [apply apiRequest_returns |]. split; [| split; [| split; reflexivity]].
  - intros s Hs. destruct (apiRequest_success_body _ _ _ _ _ _ _ Hs)
      as (body & Hacc & Hslice).
    exists body. split; [exact Hacc |].
    split; [exact (accepted_length _ _ Hacc) | exact Hslice].
  - intros body Hacc. pose proof (accepted_length _ _ Hacc) as Hlen.
    split; [exact Hlen | apply StringFacts.slice_from_in_bounds, Hlen].
Qed.

(** ** The public operations *)

Lemma report_bad_kind captchaId :
  is_report_bad {[ "id" := captchaId; "action" := "reportbad" ]} = true.
Proof. reflexivity. Qed.

(** C4: of a report-bad call whose last reply, after fewer than three
    "not ready" ones, is not "not ready": the call returns a nil error
    exactly when that reply is [OK_REPORT_RECORDED]; every other body,
    [OK|abc123] among them, gives the unexpected-body error. *)
Theorem ReportBadCaptcha_acknowledged c captchaId tr n tr' body :
  (n < 3)%nat →
  not_ready_rounds n c ResultURL
    {[ "id" := captchaId; "action" := "reportbad" ]} 0 tr = Some tr' →
  reply c ResultURL {[ "id" := captchaId; "action" := "reportbad" ]} 0 tr'
  = Some body →
  Contains body "CAPCHA_NOT_READY" = false →
  (fst (ReportBadCaptcha c captchaId tr) = Done None
   ↔ body = "OK_REPORT_RECORDED")
  ∧ (body ≠ "OK_REPORT_RECORDED" →
     fst (ReportBadCaptcha c captchaId tr)
     = Done (Some (invalid_response body)))
  ∧ (body = "OK|abc123" →
     fst (ReportBadCaptcha c captchaId tr)
     = Done (Some (errors_New "Invalid respponse from 2captcha: OK|abc123"))).
Proof.
  intros Hn Hrounds Hreply Hnr.
  assert (Hrun : fst (ReportBadCaptcha c captchaId tr)
                 = if bool_decide (body = "OK_REPORT_RECORDED")
                   then Done None else Done (Some (invalid_response body))).
  { unfold ReportBadCaptcha.
    rewrite (apiRequest_not_ready_rounds n _ _ _ _ _ _ tr') by (assumption || lia).
    rewrite (apiRequest_reply _ _ _ _ _ _ body) by (assumption || lia).
    cbn zeta. rewrite Hnr. unfold accepted. rewrite report_bad_kind.
    destruct (bool_decide_reflect (body = "OK_REPORT_RECORDED")) as [-> |];
      reflexivity. }
  rewrite Hrun.
  destruct (bool_decide_reflect (body = "OK_REPORT_RECORDED")) as [Heq | Hne].
  - split; [tauto |]. split; [tauto |]. intros ->. discriminate Heq.
  - split; [split; [discriminate | tauto] |].
    split; [reflexivity |]. intros ->. reflexivity.
Qed.




(** What 64-bit arithmetic keeps of a product: a value an [int64] holds
    that differs from the product by a multiple of [2^64]. *)
Lemma mul_wraps a b :
  - 2 ^ 63 <= Time.mul a b < 2 ^ 63
  ∧ (Time.mul a b - a * b) mod 2 ^ 64 = 0.
Proof.
  unfold Time.mul, Time.wrap64.
  pose proof (Z.mod_pos_bound (a * b + 2 ^ 63) (2 ^ 64) ltac:(lia)).
  split; [lia |].
  replace ((a * b + 2 ^ 63) mod 2 ^ 64 - 2 ^ 63 - a * b)
    with ((a * b + 2 ^ 63) mod 2 ^ 64 - (a * b + 2 ^ 63)) by lia.
  rewrite Zminus_mod_idemp_l, Z.sub_diag. reflexivity.
Qed.

(** C9, as amended: every attempt of [apiRequest] begins with
    [time.Sleep(delay * time.Second)], a product that 64-bit arithmetic
    computes: it is the product up to a multiple of [2^64]. While the
    product fits in an [int64] it is exact, so a [delay] that is not
    negative asks for that many seconds of sleep, and one that is not
    positive asks for none. A caller of [SolveRecaptchaV2] who passes
    [5 * time.Second] gets polls that each ask for 5 000 000 000 seconds;
    the 5 that [SolveRecaptchaV3] passes asks for five seconds. Beyond
    that range the product wraps and is not [delay] seconds:
    [10 * time.Second] comes out negative, [20 * time.Second] as
    1 553 255 926 290 448 384 nanoseconds. *)
Theorem apiRequest_delay_in_seconds c URL params delay retries tr :
  (- 2 ^ 63 <= Time.mul delay Time.Second < 2 ^ 63
   ∧ (Time.mul delay Time.Second - delay * Time.Second) mod 2 ^ 64 = 0)
  ∧ (retries > 0 →
     ∃ k : nat,
       (1 <= k)%nat ∧ Z.of_nat k <= retries ∧
       snd (apiRequest c URL params delay retries tr)
       = tr ++ concat (replicate k
           (match url_Parse_error URL with
            | Some _ => [Sleep (Time.mul delay Time.Second)]
            | None => [Sleep (Time.mul delay Time.Second);
                       RoundTrip (request_of c URL params)]
            end)))
  ∧ (- 2 ^ 63 <= delay * Time.Second < 2 ^ 63 →
     Time.mul delay Time.Second = delay * Time.Second
     ∧ (delay <= 0 → Time.paused (Time.mul delay Time.Second) = 0))
  ∧ (retries > 0 →
     - 2 ^ 63 <= delay * Time.Second < 2 ^ 63 →
     ∃ k : nat,
       (1 <= k)%nat ∧
       snd (apiRequest c URL params delay retries tr)
       = tr ++ concat (replicate k
           (match url_Parse_error URL with
            | Some _ => [Sleep (delay * Time.Second)]
            | None => [Sleep (delay * Time.Second);
                       RoundTrip (request_of c URL params)]
            end)))
  ∧ (∀ siteURL recaptchaKey captchaId tr1,
       retries > 0 →
       apiRequest c ApiURL (v2_submit siteURL recaptchaKey) 0 3 tr
       = (Done (captchaId, None), tr1) →
       ∃ rest,
         snd (SolveRecaptchaV2 c siteURL recaptchaKey (5 * Time.Second) retries tr)
         = tr1 ++ [Sleep (10 * Time.Second);
                   Sleep (5000000000 * Time.Second)] ++ rest)
  ∧ (∀ siteURL recaptchaKey action minScore captchaId tr1,
       apiRequest c ApiURL (v3_submit siteURL recaptchaKey action minScore) 0 3 tr
       = (Done (captchaId, None), tr1) →
       ∃ rest,
         snd (SolveRecaptchaV3 c siteURL recaptchaKey action minScore tr)
         = tr1 ++ [Sleep (5 * Time.Second)] ++ rest)
  ∧ Time.mul (10 * Time.Second) Time.Second = -8446744073709551616
  ∧ Time.mul (20 * Time.Second) Time.Second = 1553255926290448384.
Proof.
  split; [apply mul_wraps |]. split; [| split; [| split; [| split; [| split]]]].
  - intros Hgt.
    destruct (apiRequest_trace c URL params delay retries tr)
      as (k & Hle & Hk & ->).
    exists k. split; [auto |]. split; [lia |]. reflexivity.
  - intros Hfit. rewrite (mul_in_range _ _ Hfit).
    split; [reflexivity |]. unfold Time.paused, Time.Second in *.
    intros Hsign. lia.
  - intros Hgt Hfit.
    destruct (apiRequest_trace c URL params delay retries tr)
      as (k & _ & Hk & ->).
    exists k. split; [auto |]. unfold attempt, round.
    rewrite (mul_in_range _ _ Hfit). reflexivity.
  - intros siteURL recaptchaKey captchaId tr1 Hgt Hsub.
    unfold SolveRecaptchaV2. fold (v2_submit siteURL recaptchaKey).
    rewrite Hsub. fold (poll_of siteURL recaptchaKey captchaId).
    destruct (apiRequest_first_sleep c ResultURL
                (poll_of siteURL recaptchaKey captchaId) (5 * Time.Second)
                retries (tr1 ++ [Sleep (10 * Time.Second)]) Hgt)
      as (rest & Hrest).
    destruct (apiRequest_returns c ResultURL
                (poll_of siteURL recaptchaKey captchaId) (5 * Time.Second)
                retries (tr1 ++ [Sleep (10 * Time.Second)]))
      as [[resp err] Hr].
    destruct (apiRequest c ResultURL _ _ retries _) as [o t2].
    cbn [fst snd] in *. subst o t2. exists rest. cbn [snd].
    rewrite <- (assoc_L (++)). reflexivity.
  - intros siteURL recaptchaKey action minScore captchaId tr1 Hsub.
    unfold SolveRecaptchaV3.
    fold (v3_submit siteURL recaptchaKey action minScore).
    rewrite Hsub. fold (poll_of siteURL recaptchaKey captchaId).
    destruct (apiRequest_first_sleep c ResultURL
                (poll_of siteURL recaptchaKey captchaId) 5 20 tr1 ltac:(lia))
      as (rest & ->).
    exists rest. reflexivity.
  - split; reflexivity.
Qed.

End Properties.

(** ** The theorems at work on the small worlds *)

Import Examples.

Lemma apiRequest_retries_exceeded_witness :
  0 <= 0
  ∧ apiRequest (parser := accept_all) (client_of ["OK|abc123"]) ResultURL
      poll_params 5 0 []
    = (Done ("", Some (errors_New "Maximum retries exceeded")), []).
Proof.
  split; [lia |].
  apply (apiRequest_retries_exceeded (parser := accept_all)). lia.
Defined.

(** The claim C2 as it stands fails on the last retry: the one attempt is
    answered "not ready", and no second request is sent. *)
Lemma not_ready_on_last_retry_sends_nothing :
  1 > 0
  ∧ reply (parser := accept_all) (client_of ["CAPCHA_NOT_READY"]) ResultURL
      poll_params 5 [] = Some "CAPCHA_NOT_READY"
  ∧ Contains "CAPCHA_NOT_READY" "CAPCHA_NOT_READY" = true
  ∧ requests (snd (apiRequest (parser := accept_all)
                     (client_of ["CAPCHA_NOT_READY"]) ResultURL
                     poll_params 5 1 [])) = 1%nat
  ∧ ¬ retry_sends_again (parser := accept_all)
        (client_of ["CAPCHA_NOT_READY"]) ResultURL poll_params 5 1 [].
Proof.
  split; [lia |]. split; [vm_compute; reflexivity |].
  split; [reflexivity |]. split; [vm_compute; reflexivity |].
  intros [rest H]. apply (f_equal requests) in H.
  assert (Hsplit : ∀ a b, requests (a ++ b) = (requests a + requests b)%nat).
  { induction a as [| [d | req] a IH]; intros b; cbn [app requests];
      rewrite ?IH; reflexivity. }
  rewrite !Hsplit in H. unfold round in H at 1 2. cbn [requests] in H.
  assert (Hrun : requests (snd (apiRequest (parser := accept_all)
                   (client_of ["CAPCHA_NOT_READY"]) ResultURL
                   poll_params 5 1 [])) = 1%nat) by (vm_compute; reflexivity).
  rewrite Hrun in H. lia.
Qed.

Lemma apiRequest_not_ready_witness :
  (2 > 0
   ∧ reply (parser := accept_all)
       (client_of ["CAPCHA_NOT_READY"; "OK|abc123"]) ResultURL
       poll_params 5 [] = Some "CAPCHA_NOT_READY"
   ∧ Contains "CAPCHA_NOT_READY" "CAPCHA_NOT_READY" = true)
  ∧ retry_sends_again (parser := accept_all)
      (client_of ["CAPCHA_NOT_READY"; "OK|abc123"]) ResultURL poll_params 5 2 []
  ∧ apiRequest (parser := accept_all)
      (client_of ["CAPCHA_NOT_READY"; "OK|abc123"]) ResultURL poll_params 5 1 []
    = (Done ("", Some (errors_New "Maximum retries exceeded")),
       [] ++ round (client_of ["CAPCHA_NOT_READY"; "OK|abc123"]) ResultURL
               poll_params 5).
Proof.
  split; [split; [lia | split; [vm_compute; reflexivity | reflexivity]] |].
  split.
  - refine (proj1 (proj2 (apiRequest_not_ready (parser := accept_all)
      (client_of ["CAPCHA_NOT_READY"; "OK|abc123"]) ResultURL poll_params 5 2 []
      "CAPCHA_NOT_READY" _ _ _)) _);
      [lia | vm_compute; reflexivity | reflexivity | lia].
  - refine (proj2 (proj2 (apiRequest_not_ready (parser := accept_all)
      (client_of ["CAPCHA_NOT_READY"; "OK|abc123"]) ResultURL poll_params 5 1 []
      "CAPCHA_NOT_READY" _ _ _)) _);
      [lia | vm_compute; reflexivity | reflexivity | reflexivity].
Defined.

Lemma apiRequest_solved_witness :
  (1 > 0
   ∧ is_report_bad poll_params = false
   ∧ reply (parser := accept_all) (client_of ["OK|abc123"]) ResultURL
       poll_params 5 [] = Some "OK|abc123"
   ∧ Contains "OK|abc123" "CAPCHA_NOT_READY" = false
   ∧ Contains "OK|abc123" "OK|" = true)
  ∧ fst (apiRequest (parser := accept_all) (client_of ["OK|abc123"]) ResultURL
           poll_params 5 1 []) = Done ("abc123", None).
Proof.
  split.
  - split; [lia |]. split; [reflexivity |]. split; [vm_compute; reflexivity |].
    split; reflexivity.
  - refine (proj2 (apiRequest_solved (parser := accept_all)
      (client_of ["OK|abc123"]) ResultURL poll_params 5 1 [] "OK|abc123"
      _ _ _ _ _) _);
      [lia | reflexivity | vm_compute; reflexivity | reflexivity
      | reflexivity | reflexivity].
Defined.

Lemma ReportBadCaptcha_acknowledged_witness :
  ((1 < 3)%nat
   ∧ not_ready_rounds (parser := accept_all) 1
       (client_of ["CAPCHA_NOT_READY"; "OK_REPORT_RECORDED"]) ResultURL
       {[ "id" := "42"; "action" := "reportbad" ]} 0 []
     = Some ([] ++ round (client_of ["CAPCHA_NOT_READY"; "OK_REPORT_RECORDED"])
                     ResultURL {[ "id" := "42"; "action" := "reportbad" ]} 0)
   ∧ reply (parser := accept_all)
       (client_of ["CAPCHA_NOT_READY"; "OK_REPORT_RECORDED"]) ResultURL
       {[ "id" := "42"; "action" := "reportbad" ]} 0
       ([] ++ round (client_of ["CAPCHA_NOT_READY"; "OK_REPORT_RECORDED"])
                ResultURL {[ "id" := "42"; "action" := "reportbad" ]} 0)
     = Some "OK_REPORT_RECORDED"
   ∧ Contains "OK_REPORT_RECORDED" "CAPCHA_NOT_READY" = false)
  ∧ fst (ReportBadCaptcha (parser := accept_all)
           (client_of ["CAPCHA_NOT_READY"; "OK_REPORT_RECORDED"]) "42" [])
    = Done None
  ∧ fst (ReportBadCaptcha (parser := accept_all)
           (client_of ["OK|abc123"]) "42" [])
    = Done (Some (errors_New "Invalid respponse from 2captcha: OK|abc123")).
Proof.
  split; [| split].
  - split; [lia |]. split; [vm_compute; reflexivity |].
    split; [vm_compute; reflexivity | reflexivity].
  - refine (proj2 (proj1 (ReportBadCaptcha_acknowledged (parser := accept_all)
      (client_of ["CAPCHA_NOT_READY"; "OK_REPORT_RECORDED"]) "42" [] 1
      ([] ++ round (client_of ["CAPCHA_NOT_READY"; "OK_REPORT_RECORDED"])
               ResultURL {[ "id" := "42"; "action" := "reportbad" ]} 0)
      "OK_REPORT_RECORDED" _ _ _ _)) _);
      [lia | vm_compute; reflexivity | vm_compute; reflexivity
      | reflexivity | reflexivity].
  - refine (proj2 (proj2 (ReportBadCaptcha_acknowledged (parser := accept_all)
      (client_of ["OK|abc123"]) "42" [] 0 [] "OK|abc123" _ _ _ _)) _);
      [lia | reflexivity | vm_compute; reflexivity | reflexivity | reflexivity].
Defined.

Lemma apiRequest_unexpected_body_witness :
  (1 > 0
   ∧ reply (parser := accept_all) (client_of ["ERROR_WRONG_USER_KEY"])
       ResultURL poll_params 5 [] = Some "ERROR_WRONG_USER_KEY"
   ∧ Contains "ERROR_WRONG_USER_KEY" "CAPCHA_NOT_READY" = false
   ∧ accepted poll_params "ERROR_WRONG_USER_KEY" = false)
  ∧ ∃ err,
      apiRequest (parser := accept_all) (client_of ["ERROR_WRONG_USER_KEY"])
        ResultURL poll_params 5 1 []
      = (Done ("", Some err),
         [] ++ round (client_of ["ERROR_WRONG_USER_KEY"]) ResultURL poll_params 5)
      ∧ Error err = "Invalid respponse from 2captcha: " +:+ "ERROR_WRONG_USER_KEY"
      ∧ Contains (Error err) "ERROR_WRONG_USER_KEY" = true.
Proof.
  split.
  - split; [lia |]. split; [vm_compute; reflexivity |]. split; reflexivity.
  - apply (apiRequest_unexpected_body (parser := accept_all));
      [lia | vm_compute; reflexivity | reflexivity | reflexivity].
Defined.

Lemma apiRequest_transport_error_witness :
  apiRequest (parser := reject_all) (client_of ["OK|abc123"]) ResultURL
    poll_params 5 3 []
  = (Done ("", Some (foreignError "net/url" "invalid URL")),
     [] ++ [Sleep (Time.mul 5 Time.Second)])
  ∧ apiRequest (parser := accept_all) (client_of []) ResultURL
      poll_params 5 3 []
    = (Done ("", Some refused), [] ++ round (client_of []) ResultURL poll_params 5)
  ∧ apiRequest (parser := accept_all) (mkTwoCaptchaClient "KEY" breaking)
      ResultURL poll_params 5 3 []
    = (Done ("", Some cut_short),
       [] ++ round (mkTwoCaptchaClient "KEY" breaking) ResultURL poll_params 5).
Proof.
  split; [| split].
  - apply (apiRequest_transport_error (parser := reject_all)); [lia |].
    left. split; reflexivity.
  - apply (apiRequest_transport_error (parser := accept_all)); [lia |].
    right. split; [reflexivity |]. split; [reflexivity |].
    left. vm_compute. reflexivity.
  - apply (apiRequest_transport_error (parser := accept_all)); [lia |].
    right. split; [reflexivity |]. split; [reflexivity |].
    right. exists (mkResponse (mkReader "OK|" (Some cut_short))), "OK|".
    split; reflexivity.
Defined.

Lemma apiRequest_slice_in_bounds_witness :
  fst (apiRequest (parser := accept_all) (client_of ["OK|abc123"]) ResultURL
         poll_params 5 1 []) = Done ("abc123", None)
  ∧ (∃ body, accepted poll_params body = true
             ∧ (3 <= String.length body)%nat
             ∧ slice_from 3 body = Done "abc123")
  ∧ accepted report_params "OK_REPORT_RECORDED" = true
  ∧ (3 <= String.length "OK_REPORT_RECORDED")%nat
  ∧ slice_from 3 "OK_REPORT_RECORDED" = Done "REPORT_RECORDED".
Proof.
  split; [vm_compute; reflexivity |]. split.
  - refine (proj1 (proj2 (apiRequest_slice_in_bounds (parser := accept_all)
      (client_of ["OK|abc123"]) ResultURL poll_params 5 1 [])) "abc123" _).
    vm_compute. reflexivity.
  - split; [reflexivity |].
    refine (proj1 (proj2 (proj2 (apiRequest_slice_in_bounds (parser := accept_all)
      (client_of []) ResultURL report_params 0 3 []))) "OK_REPORT_RECORDED" _).
    reflexivity.
Defined.



(** The claim C9 as it stands fails for a delay of [10 * time.Second]:
    multiplied by [time.Second] again it wraps to a negative duration, and
    the poll does not sleep at all. *)
Lemma ten_seconds_scaled_twice_does_not_sleep :
  snd (apiRequest (parser := accept_all) (client_of ["OK|abc123"]) ResultURL
         poll_params (10 * Time.Second) 1 []) !! 0%nat
  = Some (Sleep (-8446744073709551616))
  ∧ snd (SolveRecaptchaV2 (parser := accept_all)
           (client_of ["OK|7"; "OK|token"])
           "https://example.com" "sitekey" (10 * Time.Second) 1 []) !! 3%nat
    = Some (Sleep (-8446744073709551616))
  ∧ Time.paused (-8446744073709551616) = 0
  ∧ Time.mul (10 * Time.Second) Time.Second ≠ 10 * Time.Second * Time.Second.
Proof.
  split; [vm_compute; reflexivity |]. split; [vm_compute; reflexivity |].
  split; [reflexivity |]. vm_compute. discriminate.
Qed.

Lemma apiRequest_delay_in_seconds_witness :
  ((1 > 0 ∧ - 2 ^ 63 <= 5 * Time.Second < 2 ^ 63)
   ∧ ∃ k : nat,
       (1 <= k)%nat ∧
       snd (apiRequest (parser := accept_all) (client_of ["OK|abc123"])
              ResultURL poll_params 5 1 [])
       = [] ++ concat (replicate k
           [Sleep (5 * Time.Second);
            RoundTrip (request_of (client_of ["OK|abc123"]) ResultURL
                         poll_params)]))
  ∧ (∃ rest,
       snd (SolveRecaptchaV2 (parser := accept_all)
              (client_of ["OK|7"; "OK|token"])
              "https://example.com" "sitekey" (5 * Time.Second) 1 [])
       = ([] ++ round (client_of ["OK|7"; "OK|token"]) ApiURL
                  (v2_submit "https://example.com" "sitekey") 0)
         ++ [Sleep (10 * Time.Second); Sleep (5000000000 * Time.Second)]
         ++ rest)
  ∧ (∃ rest,
       snd (SolveRecaptchaV3 (parser := accept_all)
              (client_of ["OK|7"; "OK|token"])
              "https://example.com" "sitekey" "verify" score_095 [])
       = ([] ++ round (client_of ["OK|7"; "OK|token"]) ApiURL
                  (v3_submit "https://example.com" "sitekey" "verify" score_095) 0)
         ++ [Sleep (5 * Time.Second)] ++ rest)
  ∧ (∃ k : nat,
       (1 <= k)%nat ∧ Z.of_nat k <= 1 ∧
       snd (apiRequest (parser := accept_all) (client_of ["OK|abc123"])
              ResultURL poll_params (10 * Time.Second) 1 [])
       = [] ++ concat (replicate k
           [Sleep (Time.mul (10 * Time.Second) Time.Second);
            RoundTrip (request_of (client_of ["OK|abc123"]) ResultURL
                         poll_params)]))
  ∧ ((- 2 ^ 63 <= -3 * Time.Second < 2 ^ 63 ∧ -3 <= 0)
     ∧ Time.mul (-3) Time.Second = -3 * Time.Second
     ∧ Time.paused (Time.mul (-3) Time.Second) = 0).
Proof.
  split; [split; [vm_compute; repeat split; congruence |] | split; [| split; [| split]]].
  - refine (proj1 (proj2 (proj2 (proj2 (apiRequest_delay_in_seconds
      (parser := accept_all)
      (client_of ["OK|abc123"]) ResultURL poll_params 5 1 [])))) _ _);
      [lia | vm_compute; split; congruence].
  - refine (proj1 (proj2 (proj2 (proj2 (proj2 (apiRequest_delay_in_seconds
      (parser := accept_all)
      (client_of ["OK|7"; "OK|token"]) ResultURL poll_params 5 1 [])))))
      "https://example.com" "sitekey" "7" _ _ _);
      [lia | vm_compute; reflexivity].
  - refine (proj1 (proj2 (proj2 (proj2 (proj2 (proj2
      (apiRequest_delay_in_seconds (parser := accept_all)
      (client_of ["OK|7"; "OK|token"]) ResultURL poll_params 5 1 []))))))
      "https://example.com" "sitekey" "verify" score_095 "7" _ _).
    vm_compute. reflexivity.
  - refine (proj1 (proj2 (apiRequest_delay_in_seconds (parser := accept_all)
      (client_of ["OK|abc123"]) ResultURL poll_params (10 * Time.Second) 1 []))
      _). lia.
  - split; [vm_compute; repeat split; congruence |].
    destruct (proj1 (proj2 (proj2 (apiRequest_delay_in_seconds
      (parser := accept_all)
      (client_of ["OK|abc123"]) ResultURL poll_params (-3) 1 [])))
      ltac:(vm_compute; split; congruence)) as [Hmul Hpause].
    split; [exact Hmul |]. apply Hpause. lia.
Defined.

(** A whole run of each public operation: the submission is answered at
    once, the first poll is answered "not ready", the second succeeds. *)
Example SolveRecaptchaV2_run :
  let run := SolveRecaptchaV2 (parser := accept_all)
               (client_of ["OK|7"; "CAPCHA_NOT_READY"; "OK|token"])
               "https://example.com" "sitekey" 5 3 [] in
  fst run = Done ("token", "7", None)
  ∧ requests (snd run) = 3%nat
  ∧ sleeps (snd run) = [0; 10000000000; 5000000000; 5000000000].
Proof. vm_compute. repeat split. Qed.

Example SolveRecaptchaV3_run :
  let run := SolveRecaptchaV3 (parser := accept_all)
               (client_of ["OK|7"; "CAPCHA_NOT_READY"; "OK|token"])
               "https://example.com" "sitekey" "verify" score_095 [] in
  fst run = Done ("token", None)
  ∧ requests (snd run) = 3%nat
  ∧ sleeps (snd run) = [0; 5000000000; 5000000000].
Proof. vm_compute. repeat split. Qed.

Example ReportBadCaptcha_run :
  let run := ReportBadCaptcha (parser := accept_all)
               (client_of ["OK_REPORT_RECORDED"]) "7" [] in
  fst run = Done None ∧ requests (snd run) = 1%nat ∧ sleeps (snd run) = [0].
Proof. vm_compute. repeat split. Qed.

(** ** More about the retry loop *)

Section RetryLoop.

Context {parser : UrlParser}.

Lemma requests_app a b : requests (a ++ b) = (requests a + requests b)%nat.
Proof.
  induction a as [| [d | req] a IH]; cbn [app requests];
    rewrite ?IH; reflexivity.
Qed.

Lemma sleeps_app a b : sleeps (a ++ b) = sleeps a ++ sleeps b.
Proof.
  induction a as [| [d | req] a IH]; cbn [app sleeps];
    rewrite ?IH; reflexivity.
Qed.

Lemma paused_total_app a b :
  paused_total (a ++ b) = paused_total a + paused_total b.
Proof.
  unfold paused_total. rewrite sleeps_app.
  induction (sleeps a) as [| d l IH]; cbn [app foldr]; lia.
Qed.

Lemma requests_attempts k c URL params delay :
  (requests (concat (replicate k (attempt c URL params delay))) <= k)%nat.
Proof.
  induction k as [| k IH]; cbn [replicate concat]; [cbn; lia |].
  rewrite requests_app. unfold attempt at 1, round.
  destruct (url_Parse_error URL); cbn [requests]; lia.
Qed.

Lemma sleeps_attempts k c URL params delay :
  sleeps (concat (replicate k (attempt c URL params delay)))
  = replicate k (Time.mul delay Time.Second).
Proof.
  induction k as [| k IH]; cbn [replicate concat]; [reflexivity |].
  rewrite sleeps_app, IH. unfold attempt, round.
  destruct (url_Parse_error URL); reflexivity.
Qed.

Lemma requests_not_ready_rounds n c URL params delay tr tr' :
  not_ready_rounds n c URL params delay tr = Some tr' →
  requests tr' = (requests tr + n)%nat.
Proof.
  revert tr. induction n as [| n IH]; intros tr Hrounds.
  - injection Hrounds as <-. lia.
  - cbn [not_ready_rounds] in Hrounds.
    destruct (reply c URL params delay tr); [| discriminate].
    destruct (Contains _ _); [| discriminate].
    rewrite (IH _ Hrounds), requests_app. unfold round. cbn [requests]. lia.
Qed.

(** What one call may cost: [apiRequest] only adds to the trace, and what
    it adds holds no more requests and no more sleeps than [retries], none
    at all when [retries] is zero or less. *)
Theorem apiRequest_request_budget c URL params delay retries tr :
  ∃ new,
    snd (apiRequest c URL params delay retries tr) = tr ++ new
    ∧ Z.of_nat (requests new) <= Z.max 0 retries
    ∧ Z.of_nat (length (sleeps new)) <= Z.max 0 retries.
Proof.
  destruct (apiRequest_trace c URL params delay retries tr)
    as (k & Hk & _ & Htr).
  exists (concat (replicate k (attempt c URL params delay))).
  split; [exact Htr |].
  pose proof (requests_attempts k c URL params delay).
  rewrite sleeps_attempts, length_replicate. lia.
Qed.

(** Every request [apiRequest] sends is the same one: a POST to the given
    URL, of content type [application/x-www-form-urlencoded], whose body
    is the encoded form of the API key and the parameters. *)
Theorem apiRequest_sends_form_posts c URL params delay retries tr :
  ∃ new,
    snd (apiRequest c URL params delay retries tr) = tr ++ new
    ∧ ∀ req, RoundTrip req ∈ new →
        Method req = "POST"
        ∧ Http.URL req = URL
        ∧ Header req !! "Content-Type"
          = Some ["application/x-www-form-urlencoded"]
        ∧ ReqBody req = Url.Encode (form_of c params).
Proof.
  destruct (apiRequest_trace c URL params delay retries tr)
    as (k & _ & _ & Htr).
  exists (concat (replicate k (attempt c URL params delay))).
  split; [exact Htr |]. intros req Hin.
  assert (Hreq : req = request_of c URL params).
  { clear Htr. induction k as [| k IH]; cbn [replicate concat] in Hin.
    - apply elem_of_nil in Hin. destruct Hin.
    - apply elem_of_app in Hin as [Hin | Hin]; [| exact (IH Hin)].
      unfold attempt, round in Hin. destruct (url_Parse_error URL).
      + apply list_elem_of_singleton in Hin. discriminate Hin.
      + apply elem_of_cons in Hin as [Hin | Hin]; [discriminate Hin |].
        apply list_elem_of_singleton in Hin. congruence. }
  subst req. repeat split; reflexivity.
Qed.

(** What one call adds to the trace is a number of whole attempts, each
    one sleep and then at most one request: no more attempts than
    [retries], and at least one when [retries] is positive. So the call
    sleeps once per attempt, always for the same [delay * time.Second],
    and the sleep it asks for in all is that of one attempt times the
    number of attempts. *)
Theorem apiRequest_total_pause c URL params delay retries tr :
  ∃ k : nat,
    snd (apiRequest c URL params delay retries tr)
    = tr ++ concat (replicate k (attempt c URL params delay))
    ∧ Z.of_nat k <= Z.max 0 retries
    ∧ (retries > 0 → (1 <= k)%nat)
    ∧ sleeps (concat (replicate k (attempt c URL params delay)))
      = replicate k (Time.mul delay Time.Second)
    ∧ (requests (concat (replicate k (attempt c URL params delay))) <= k)%nat
    ∧ paused_total (concat (replicate k (attempt c URL params delay)))
      = Z.of_nat k * Time.paused (Time.mul delay Time.Second).
Proof.
  destruct (apiRequest_trace c URL params delay retries tr)
    as (k & Hk & Hpos & Htr).
  exists k. split; [exact Htr |]. split; [exact Hk |]. split; [exact Hpos |].
  split; [apply sleeps_attempts |]. split; [apply requests_attempts |].
  unfold paused_total. rewrite sleeps_attempts. clear.
  induction k as [| k IH]; [reflexivity |].
  cbn [replicate foldr]. rewrite IH. lia.
Qed.

(** A budget used up on "not ready" answers: when each of [n] attempts, as
    many as there are retries, is answered "not ready", the call fails
    with the retries-exceeded error after exactly [n] requests. *)
Theorem apiRequest_not_ready_exhausts n c URL params delay tr tr' :
  not_ready_rounds n c URL params delay tr = Some tr' →
  apiRequest c URL params delay (Z.of_nat n) tr
  = (Done ("", Some (errors_New "Maximum retries exceeded")), tr')
  ∧ requests tr' = (requests tr + n)%nat.
Proof.
  intros Hrounds. split; [| eapply requests_not_ready_rounds, Hrounds].
  rewrite (apiRequest_not_ready_rounds n _ _ _ _ _ _ tr') by (assumption || lia).
  apply apiRequest_exhausted. lia.
Qed.

(** A send that fails after [n] "not ready" answers ends the call with that
    error at request [n + 1], however many retries were left. *)
Theorem apiRequest_send_error_after_not_ready
    n c URL params delay retries tr tr' err :
  not_ready_rounds n c URL params delay tr = Some tr' →
  Z.of_nat n < retries →
  url_Parse_error URL = None →
  Do (Client c) (tr' ++ [Sleep (Time.mul delay Time.Second)])
     (request_of c URL params) = inr err →
  apiRequest c URL params delay retries tr
  = (Done ("", Some err), tr' ++ round c URL params delay)
  ∧ requests (tr' ++ round c URL params delay) = (requests tr + n + 1)%nat.
Proof.
  intros Hrounds Hn Hurl Hdo. split.
  - rewrite (apiRequest_not_ready_rounds n _ _ _ _ _ _ tr') by (assumption || lia).
    rewrite apiRequest_attempt by lia. cbn zeta. rewrite Hurl, Hdo. reflexivity.
  - rewrite requests_app, (requests_not_ready_rounds _ _ _ _ _ _ _ Hrounds).
    unfold round. cbn [requests]. lia.
Qed.

(** A payload and an error never come together: whenever [apiRequest]
    returns an error, the string beside it is empty. *)
Theorem apiRequest_error_has_no_payload c URL params delay retries tr s err :
  fst (apiRequest c URL params delay retries tr) = Done (s, Some err) →
  s = "".
Proof.
  revert tr. pattern retries. apply retries_ind; clear retries.
  - intros r Hle tr. rewrite apiRequest_exhausted by assumption.
    intros [= <- _]. reflexivity.
  - intros r Hgt IH tr. rewrite apiRequest_attempt by assumption. cbn zeta.
    destruct (url_Parse_error URL); [intros [= <- _]; reflexivity |].
    destruct (Do _ _ _) as [resp | e]; [| intros [= <- _]; reflexivity].
    destruct (ReadAll _) as [body [e |]]; [intros [= <- _]; reflexivity |].
    destruct (Contains body "CAPCHA_NOT_READY"); [apply IH |].
    destruct (accepted params body); [| intros [= <- _]; reflexivity].
    destruct (slice_from 3 body); discriminate.
Qed.

End RetryLoop.

(** ** More about the public operations *)

Section Operations.

Context {parser : UrlParser}.

Lemma apiRequest_requests_le c URL params delay retries tr :
  (requests (snd (apiRequest c URL params delay retries tr))
   <= requests tr + Z.to_nat retries)%nat.
Proof.
  destruct (apiRequest_trace c URL params delay retries tr)
    as (k & Hk & _ & ->).
  rewrite requests_app.
  pose proof (requests_attempts k c URL params delay). lia.
Qed.

(** What the three operations may cost in requests: [SolveRecaptchaV2] at
    most three and the caller's [retries], [SolveRecaptchaV3] at most
    twenty-three, [ReportBadCaptcha] at most three. *)
Theorem request_budgets c siteURL recaptchaKey action minScore captchaId
    delay retries tr :
  (requests (snd (SolveRecaptchaV2 c siteURL recaptchaKey delay retries tr))
   <= requests tr + 3 + Z.to_nat retries)%nat
  ∧ (requests (snd (SolveRecaptchaV3 c siteURL recaptchaKey action minScore tr))
     <= requests tr + 23)%nat
  ∧ (requests (snd (ReportBadCaptcha c captchaId tr)) <= requests tr + 3)%nat.
Proof.
  split; [| split].
  - unfold SolveRecaptchaV2.
    pose proof (apiRequest_requests_le c ApiURL
                  (v2_submit siteURL recaptchaKey) 0 3 tr) as H1.
    unfold v2_submit in H1.
    destruct (apiRequest c ApiURL _ 0 3 tr) as [[[id [err |]] |] t1];
      cbn [snd] in *; try lia.
    match goal with
    | |- context [apiRequest c ResultURL ?p delay retries ?t] =>
        pose proof (apiRequest_requests_le c ResultURL p delay retries t) as H2;
        destruct (apiRequest c ResultURL p delay retries t) as [[[resp e] |] t2]
    end; cbn [snd] in *; rewrite requests_app in H2; cbn [requests] in H2; lia.
  - unfold SolveRecaptchaV3.
    pose proof (apiRequest_requests_le c ApiURL
                  (v3_submit siteURL recaptchaKey action minScore) 0 3 tr) as H1.
    unfold v3_submit in H1.
    destruct (apiRequest c ApiURL _ 0 3 tr) as [[[id [err |]] |] t1];
      cbn [snd] in *; try lia.
    match goal with
    | |- context [apiRequest c ResultURL ?p 5 20 ?t] =>
        pose proof (apiRequest_requests_le c ResultURL p 5 20 t) as H2
    end. lia.
  - unfold ReportBadCaptcha.
    match goal with
    | |- context [apiRequest c ResultURL ?p 0 3 tr] =>
        pose proof (apiRequest_requests_le c ResultURL p 0 3 tr) as H1;
        destruct (apiRequest c ResultURL p 0 3 tr) as [[[resp e] |] t1]
    end; cbn [snd] in *; lia.
Qed.

(** A caller who leaves no retries still pays for the submission:
    [SolveRecaptchaV2] with [retries <= 0] submits, sleeps its ten seconds
    after a successful submission and only then fails with the
    retries-exceeded error, without a single poll; the ID of the submitted
    challenge comes back with the error. *)
Theorem SolveRecaptchaV2_without_retries
    c siteURL recaptchaKey delay retries tr captchaId tr1 :
  retries <= 0 →
  apiRequest c ApiURL (v2_submit siteURL recaptchaKey) 0 3 tr
  = (Done (captchaId, None), tr1) →
  SolveRecaptchaV2 c siteURL recaptchaKey delay retries tr
  = (Done ("", captchaId, Some (errors_New "Maximum retries exceeded")),
     tr1 ++ [Sleep (10 * Time.Second)]).
Proof.
  intros Hle Hsub. unfold SolveRecaptchaV2.
  fold (v2_submit siteURL recaptchaKey). rewrite Hsub.
  rewrite apiRequest_exhausted by assumption. reflexivity.
Qed.

(** The ID that is polled is the one the submission answered: when the
    submission is answered at once by a body that holds [OK|], then
    [SolveRecaptchaV2] sleeps ten seconds and every poll it sends carries,
    in the field [id], that body less its first three bytes, which is also
    the ID it returns. *)
Theorem SolveRecaptchaV2_polls_submitted_id
    c siteURL recaptchaKey delay retries tr body :
  reply c ApiURL (v2_submit siteURL recaptchaKey) 0 tr = Some body →
  Contains body "CAPCHA_NOT_READY" = false →
  Contains body "OK|" = true →
  let captchaId := String.substring 3 (String.length body - 3) body in
  let poll := poll_of siteURL recaptchaKey captchaId in
  form_of c poll !! "id" = Some [captchaId]
  ∧ form_of c poll !! "action" = Some ["get"]
  ∧ ∃ (k : nat) (resp : string) (err : option error),
      Z.of_nat k <= Z.max 0 retries
      ∧ SolveRecaptchaV2 c siteURL recaptchaKey delay retries tr
        = (Done (resp, captchaId, err),
           (tr ++ round c ApiURL (v2_submit siteURL recaptchaKey) 0)
           ++ [Sleep (10 * Time.Second)]
           ++ concat (replicate k (attempt c ResultURL poll delay))).
Proof.
  intros Hreply Hnr Hok captchaId poll.
  split; [| split].
  - rewrite FormFacts.form_of_lookup. reflexivity.
  - rewrite FormFacts.form_of_lookup. reflexivity.
  - assert (Hsub : apiRequest c ApiURL (v2_submit siteURL recaptchaKey) 0 3 tr
                   = (Done (captchaId, None),
                      tr ++ round c ApiURL (v2_submit siteURL recaptchaKey) 0)).
    { rewrite (apiRequest_reply _ _ _ _ _ _ body) by (assumption || lia).
      cbn zeta. rewrite Hnr. unfold accepted.
      change (is_report_bad (v2_submit siteURL recaptchaKey)) with false.
      rewrite Hok.
      rewrite StringFacts.slice_from_in_bounds
        by (apply StringFacts.Contains_length in Hok; exact Hok).
      reflexivity. }
    unfold SolveRecaptchaV2. fold (v2_submit siteURL recaptchaKey).
    rewrite Hsub. fold (poll_of siteURL recaptchaKey captchaId). fold poll.
    set (tr2 := (tr ++ _) ++ [Sleep _]).
    destruct (apiRequest_trace c ResultURL poll delay retries tr2)
      as (k & Hk & _ & Htr2).
    destruct (apiRequest_returns c ResultURL poll delay retries tr2)
      as [[resp err] Hr].
    exists k, resp, err. split; [exact Hk |].
    destruct (apiRequest c ResultURL poll delay retries tr2) as [o t2].
    cbn [fst snd] in *. subst o t2. unfold tr2.
    rewrite <- (assoc_L (++)). reflexivity.
Qed.

(** The action label of a v3 challenge decides how its submission is
    judged: with the label [reportbad] the submission is held to the
    report-bad shape, and any answer but [OK_REPORT_RECORDED], the usual
    [OK|] and an ID included, fails the call with the unexpected-body
    error before any poll. *)
Theorem SolveRecaptchaV3_action_reportbad
    c siteURL recaptchaKey minScore tr body :
  reply c ApiURL (v3_submit siteURL recaptchaKey "reportbad" minScore) 0 tr
  = Some body →
  Contains body "CAPCHA_NOT_READY" = false →
  body ≠ "OK_REPORT_RECORDED" →
  SolveRecaptchaV3 c siteURL recaptchaKey "reportbad" minScore tr
  = (Done ("", Some (invalid_response body)),
     tr ++ round c ApiURL
             (v3_submit siteURL recaptchaKey "reportbad" minScore) 0).
Proof.
  intros Hreply Hnr Hne. unfold SolveRecaptchaV3.
  fold (v3_submit siteURL recaptchaKey "reportbad" minScore).
  rewrite (apiRequest_reply _ _ _ _ _ _ body) by (assumption || lia).
  cbn zeta. rewrite Hnr. unfold accepted.
  change (is_report_bad (v3_submit siteURL recaptchaKey "reportbad" minScore))
    with true.
  rewrite bool_decide_eq_false_2 by exact Hne. reflexivity.
Qed.

(** The form built in any order that names no field twice. *)
Lemma form_in_order_lookup c (kvs : list (string * string)) k :
  NoDup kvs.*1 →
  form_in_order c kvs !! k
  = if decide (k = "key")
    then Some (ApiKey c :: option_list ((list_to_map kvs : gmap string string) !! "key"))
    else (λ v, [v]) <$> (list_to_map kvs : gmap string string) !! k.
Proof.
  unfold form_in_order. revert k.
  induction kvs as [| [i x] kvs IH] using rev_ind; intros k Hnd.
  - cbn. unfold Url.Add. rewrite lookup_empty.
    destruct (decide (k = "key")) as [-> | Hk].
    + rewrite lookup_insert_eq. reflexivity.
    + rewrite lookup_insert_ne, !lookup_empty by congruence. reflexivity.
  - rewrite fmap_app in Hnd. apply NoDup_app in Hnd as (Hnd & Hfresh & _).
    assert (Hni : i ∉ kvs.*1).
    { intros Hin. apply (Hfresh i Hin). cbn. left. }
    pose proof (not_elem_of_list_to_map_1 (M := gmap string) kvs i Hni) as Hi.
    pose proof (list_to_map_snoc (M := gmap string) kvs i x Hni) as Hmap.
    rewrite Hmap, foldl_app. cbn [foldl fst snd]. unfold Url.Add at 1.
    destruct (decide (k = i)) as [-> | Hki].
    + rewrite !lookup_insert_eq, (IH _ Hnd).
      destruct (decide (i = "key")) as [-> |]; rewrite Hi; [| reflexivity].
      rewrite lookup_insert_eq. reflexivity.
    + rewrite lookup_insert_ne, (IH _ Hnd) by congruence.
      destruct (decide (k = "key")) as [-> |].
      * rewrite lookup_insert_ne by congruence. reflexivity.
      * rewrite lookup_insert_ne by congruence. reflexivity.
Qed.

(** What is posted does not depend on the order in which Go ranges over
    the parameters: whatever the order, the form is the one [apiRequest]
    is given here. Its field [key] holds the API key, followed by the
    value of a parameter named [key] if there is one, and every other
    parameter is a field of its own with its one value. *)
Theorem form_of_posts_key_and_params c (params : gmap string string) :
  (∀ kvs, kvs ≡ₚ map_to_list params → form_in_order c kvs = form_of c params)
  ∧ form_of c params !! "key"
    = Some (ApiKey c :: option_list (params !! "key"))
  ∧ ∀ k, k ≠ "key" →
      form_of c params !! k = (λ v, [v]) <$> params !! k.
Proof.
  split; [| split].
  - intros kvs Hperm.
    assert (Hnd : NoDup kvs.*1).
    { rewrite Hperm. apply NoDup_fst_map_to_list. }
    assert (Hmap : (list_to_map kvs : gmap string string) = params).
    { rewrite (list_to_map_proper kvs (map_to_list params) Hnd Hperm).
      apply list_to_map_to_list. }
    apply map_eq. intros k.
    rewrite FormFacts.form_of_lookup, (form_in_order_lookup _ _ _ Hnd), Hmap.
    reflexivity.
  - rewrite FormFacts.form_of_lookup. reflexivity.
  - intros k Hk. rewrite FormFacts.form_of_lookup.
    destruct (decide (k = "key")); [contradiction | reflexivity].
Qed.

(** The bodies as they are posted: the fields in the order of their names,
    every value escaped. *)
Theorem request_bodies c siteURL recaptchaKey captchaId :
  ReqBody (request_of c ApiURL (v2_submit siteURL recaptchaKey))
  = "googlekey=" +:+ Url.QueryEscape recaptchaKey
    +:+ "&key=" +:+ Url.QueryEscape (ApiKey c)
    +:+ "&method=userrecaptcha&pageurl=" +:+ Url.QueryEscape siteURL
  ∧ ReqBody (request_of c ResultURL (poll_of siteURL recaptchaKey captchaId))
    = "action=get&googlekey=" +:+ Url.QueryEscape recaptchaKey
      +:+ "&id=" +:+ Url.QueryEscape captchaId
      +:+ "&key=" +:+ Url.QueryEscape (ApiKey c)
      +:+ "&method=userrecaptcha&pageurl=" +:+ Url.QueryEscape siteURL
  ∧ ReqBody (request_of c ResultURL
               {[ "id" := captchaId; "action" := "reportbad" ]})
    = "action=reportbad&id=" +:+ Url.QueryEscape captchaId
      +:+ "&key=" +:+ Url.QueryEscape (ApiKey c).
Proof. split; [| split]; vm_compute; reflexivity. Qed.

End Operations.

(** ** More about what goes on the wire *)

Module WireFacts.

Import Fmt.

Lemma upperhex_escaped n :
  (n < 16)%N → Url.escaped_byte (Url.upperhex n) = true.
Proof.
  intros Hn.
  assert (H : (n = 0 ∨ n = 1 ∨ n = 2 ∨ n = 3 ∨ n = 4 ∨ n = 5 ∨ n = 6 ∨ n = 7
               ∨ n = 8 ∨ n = 9 ∨ n = 10 ∨ n = 11 ∨ n = 12 ∨ n = 13 ∨ n = 14
               ∨ n = 15)%N) by lia.
  repeat destruct H as [-> | H]; try subst n; reflexivity.
Qed.

(** An escaped value cannot close its field or open another: whatever the
    value, [QueryEscape] writes only unreserved bytes and the [+] and [%]
    of its escapes, and neither [&] nor [=] is among them. *)
Theorem QueryEscape_keeps_to_its_field s :
  Url.all_bytes Url.escaped_byte (Url.QueryEscape s) = true
  ∧ Url.escaped_byte "&" = false
  ∧ Url.escaped_byte "=" = false.
Proof.
  split; [| split; reflexivity].
  induction s as [| c s IH]; [reflexivity |].
  cbn [Url.QueryEscape].
  destruct (bool_decide (c = " "%char)).
  { cbn [Url.all_bytes]. rewrite IH. reflexivity. }
  destruct (Url.shouldEscape c) eqn:Hc.
  - cbn [Url.all_bytes]. rewrite IH, !upperhex_escaped; [reflexivity | |].
    + apply N.mod_lt. discriminate.
    + apply N.Div0.div_lt_upper_bound. apply (N_ascii_bounded c).
  - cbn [Url.all_bytes]. rewrite IH. unfold Url.escaped_byte. rewrite Hc.
    reflexivity.
Qed.

Lemma tenths_unit_interval m e :
  at_most_one m e = true → 0 <= tenths m e <= 10.
Proof.
  unfold at_most_one, tenths. destruct (Z.leb_spec 0 e) as [He | He].
  - intros H. apply Z.leb_le in H.
    assert (0 < 2 ^ e) by (apply Z.pow_pos_nonneg; lia). nia.
  - intros H. apply Z.leb_le in H. cbn zeta.
    assert (Hden : 0 < 2 ^ (- e)) by (apply Z.pow_pos_nonneg; lia).
    pose proof (Z.div_mod (Z.pos m * 10) (2 ^ (- e)) ltac:(lia)) as Hdm.
    pose proof (Z.mod_pos_bound (Z.pos m * 10) (2 ^ (- e)) Hden) as Hr.
    set (den := 2 ^ (- e)) in *. set (num := Z.pos m * 10) in *.
    set (q := num / den) in *. set (r := num mod den) in *.
    assert (Hq : 0 <= q <= 10) by nia.
    assert (Hten : q = 10 → r = 0) by nia.
    destruct (Z.ltb_spec (2 * r) den); [lia |].
    destruct (Z.ltb_spec den (2 * r)); [lia |].
    destruct (Z.even q); lia.
Qed.

(** A score between zero and one is posted as one of the eleven numerals
    from [0.0] to [1.0]. *)
Theorem Sprintf_1f_unit_interval m e :
  at_most_one m e = true →
  Sprintf_1f (S754_finite false m e)
  ∈ ["0.0"; "0.1"; "0.2"; "0.3"; "0.4"; "0.5"; "0.6"; "0.7"; "0.8"; "0.9"; "1.0"].
Proof.
  intros H. apply tenths_unit_interval in H. cbn [Sprintf_1f].
  assert (Ht : tenths m e = 0 ∨ tenths m e = 1 ∨ tenths m e = 2
               ∨ tenths m e = 3 ∨ tenths m e = 4 ∨ tenths m e = 5
               ∨ tenths m e = 6 ∨ tenths m e = 7 ∨ tenths m e = 8
               ∨ tenths m e = 9 ∨ tenths m e = 10) by lia.
  repeat destruct Ht as [-> | Ht]; try rewrite Ht;
    vm_compute; repeat constructor.
Qed.

End WireFacts.

(** ** The further theorems at work on the small worlds *)

Lemma apiRequest_not_ready_exhausts_witness :
  not_ready_rounds (parser := accept_all) 2
    (client_of ["CAPCHA_NOT_READY"; "CAPCHA_NOT_READY"; "OK|abc123"])
    ResultURL poll_params 5 []
  = Some (([] ++ round (client_of ["CAPCHA_NOT_READY"; "CAPCHA_NOT_READY"; "OK|abc123"])
                   ResultURL poll_params 5)
          ++ round (client_of ["CAPCHA_NOT_READY"; "CAPCHA_NOT_READY"; "OK|abc123"])
               ResultURL poll_params 5)
  ∧ fst (apiRequest (parser := accept_all)
           (client_of ["CAPCHA_NOT_READY"; "CAPCHA_NOT_READY"; "OK|abc123"])
           ResultURL poll_params 5 2 [])
    = Done ("", Some (errors_New "Maximum retries exceeded"))
  ∧ requests (snd (apiRequest (parser := accept_all)
                     (client_of ["CAPCHA_NOT_READY"; "CAPCHA_NOT_READY"; "OK|abc123"])
                     ResultURL poll_params 5 2 [])) = 2%nat.
Proof.
  assert (Hrounds : not_ready_rounds (parser := accept_all) 2
    (client_of ["CAPCHA_NOT_READY"; "CAPCHA_NOT_READY"; "OK|abc123"])
    ResultURL poll_params 5 []
    = Some (([] ++ round (client_of ["CAPCHA_NOT_READY"; "CAPCHA_NOT_READY"; "OK|abc123"])
                     ResultURL poll_params 5)
            ++ round (client_of ["CAPCHA_NOT_READY"; "CAPCHA_NOT_READY"; "OK|abc123"])
                 ResultURL poll_params 5)) by (vm_compute; reflexivity).
  split; [exact Hrounds |].
  destruct (apiRequest_not_ready_exhausts (parser := accept_all) 2 _ _ _ _ _ _
              Hrounds) as [Hrun Hcount].
  change (Z.of_nat 2) with 2 in Hrun. rewrite Hrun.
  split; [reflexivity | exact Hcount].
Defined.

Lemma apiRequest_send_error_after_not_ready_witness :
  apiRequest (parser := accept_all) (client_of ["CAPCHA_NOT_READY"])
    ResultURL poll_params 5 3 []
  = (Done ("", Some refused),
     ([] ++ round (client_of ["CAPCHA_NOT_READY"]) ResultURL poll_params 5)
     ++ round (client_of ["CAPCHA_NOT_READY"]) ResultURL poll_params 5)
  ∧ requests
      (([] ++ round (client_of ["CAPCHA_NOT_READY"]) ResultURL poll_params 5)
       ++ round (client_of ["CAPCHA_NOT_READY"]) ResultURL poll_params 5)
    = 2%nat.
Proof.
  apply (apiRequest_send_error_after_not_ready (parser := accept_all) 1
           (client_of ["CAPCHA_NOT_READY"]) ResultURL poll_params 5 3 []);
    [vm_compute; reflexivity | lia | reflexivity | vm_compute; reflexivity].
Defined.

Lemma apiRequest_error_has_no_payload_witness :
  fst (apiRequest (parser := accept_all) (client_of ["ERROR_WRONG_USER_KEY"])
         ResultURL poll_params 5 1 [])
  = Done ("", Some (invalid_response "ERROR_WRONG_USER_KEY"))
  ∧ "" = "".
Proof.
  assert (Hrun : fst (apiRequest (parser := accept_all)
                        (client_of ["ERROR_WRONG_USER_KEY"])
                        ResultURL poll_params 5 1 [])
                 = Done ("", Some (invalid_response "ERROR_WRONG_USER_KEY")))
    by (vm_compute; reflexivity).
  split; [exact Hrun |].
  exact (apiRequest_error_has_no_payload (parser := accept_all)
           (client_of ["ERROR_WRONG_USER_KEY"]) ResultURL poll_params 5 1 []
           "" _ Hrun).
Defined.

Lemma SolveRecaptchaV2_without_retries_witness :
  (0 <= 0
   ∧ apiRequest (parser := accept_all) (client_of ["OK|7"]) ApiURL
       (v2_submit "https://example.com" "sitekey") 0 3 []
     = (Done ("7", None),
        [] ++ round (client_of ["OK|7"]) ApiURL
                (v2_submit "https://example.com" "sitekey") 0))
  ∧ SolveRecaptchaV2 (parser := accept_all) (client_of ["OK|7"])
      "https://example.com" "sitekey" 5 0 []
    = (Done ("", "7", Some (errors_New "Maximum retries exceeded")),
       ([] ++ round (client_of ["OK|7"]) ApiURL
                (v2_submit "https://example.com" "sitekey") 0)
       ++ [Sleep (10 * Time.Second)]).
Proof.
  split; [split; [lia | vm_compute; reflexivity] |].
  apply (SolveRecaptchaV2_without_retries (parser := accept_all));
    [lia | vm_compute; reflexivity].
Defined.

Lemma SolveRecaptchaV2_polls_submitted_id_witness :
  (reply (parser := accept_all) (client_of ["OK|7"; "OK|token"]) ApiURL
     (v2_submit "https://example.com" "sitekey") 0 [] = Some "OK|7"
   ∧ Contains "OK|7" "CAPCHA_NOT_READY" = false
   ∧ Contains "OK|7" "OK|" = true)
  ∧ form_of (client_of ["OK|7"; "OK|token"])
      (poll_of "https://example.com" "sitekey" "7") !! "id" = Some ["7"]
  ∧ fst (SolveRecaptchaV2 (parser := accept_all)
           (client_of ["OK|7"; "OK|token"])
           "https://example.com" "sitekey" 5 3 [])
    = Done ("token", "7", None).
Proof.
  split; [split; [vm_compute; reflexivity | split; reflexivity] |].
  destruct (SolveRecaptchaV2_polls_submitted_id (parser := accept_all)
              (client_of ["OK|7"; "OK|token"]) "https://example.com" "sitekey"
              5 3 [] "OK|7")
    as (Hid & _ & k & resp & err & _ & Hrun);
    [vm_compute; reflexivity | reflexivity | reflexivity |].
  split; [exact Hid |]. vm_compute. reflexivity.
Defined.

Lemma SolveRecaptchaV3_action_reportbad_witness :
  (reply (parser := accept_all) (client_of ["OK|7"; "OK|token"]) ApiURL
     (v3_submit "https://example.com" "sitekey" "reportbad" score_095) 0 []
   = Some "OK|7"
   ∧ Contains "OK|7" "CAPCHA_NOT_READY" = false
   ∧ "OK|7" ≠ "OK_REPORT_RECORDED")
  ∧ SolveRecaptchaV3 (parser := accept_all) (client_of ["OK|7"; "OK|token"])
      "https://example.com" "sitekey" "reportbad" score_095 []
    = (Done ("", Some (invalid_response "OK|7")),
       [] ++ round (client_of ["OK|7"; "OK|token"]) ApiURL
               (v3_submit "https://example.com" "sitekey" "reportbad" score_095) 0).
Proof.
  split; [split; [vm_compute; reflexivity | split; [reflexivity | discriminate]] |].
  apply (SolveRecaptchaV3_action_reportbad (parser := accept_all));
    [vm_compute; reflexivity | reflexivity | discriminate].
Defined.

Lemma Sprintf_1f_unit_interval_witness :
  Fmt.at_most_one 8556839292003942 (-53) = true
  ∧ Fmt.Sprintf_1f score_095
    ∈ ["0.0"; "0.1"; "0.2"; "0.3"; "0.4"; "0.5"; "0.6"; "0.7"; "0.8"; "0.9"; "1.0"].
Proof.
  split; [reflexivity |].
  apply WireFacts.Sprintf_1f_unit_interval. reflexivity.
Defined.

Lemma apiRequest_sends_form_posts_witness :
  RoundTrip (request_of (client_of ["OK|abc123"]) ResultURL poll_params)
  ∈ snd (apiRequest (parser := accept_all) (client_of ["OK|abc123"])
           ResultURL poll_params 5 1 [])
  ∧ Method (request_of (client_of ["OK|abc123"]) ResultURL poll_params) = "POST"
  ∧ Http.URL (request_of (client_of ["OK|abc123"]) ResultURL poll_params)
    = ResultURL
  ∧ Header (request_of (client_of ["OK|abc123"]) ResultURL poll_params)
      !! "Content-Type" = Some ["application/x-www-form-urlencoded"]
  ∧ ReqBody (request_of (client_of ["OK|abc123"]) ResultURL poll_params)
    = Url.Encode (form_of (client_of ["OK|abc123"]) poll_params).
Proof.
  assert (Hin : RoundTrip (request_of (client_of ["OK|abc123"]) ResultURL poll_params)
                ∈ snd (apiRequest (parser := accept_all) (client_of ["OK|abc123"])
                         ResultURL poll_params 5 1 [])).
  { rewrite (apiRequest_attempt (parser := accept_all)) by lia.
    right. left. }
  split; [exact Hin |].
  destruct (apiRequest_sends_form_posts (parser := accept_all)
              (client_of ["OK|abc123"]) ResultURL poll_params 5 1 [])
    as (new & Hnew & Hall).
  apply Hall. rewrite Hnew in Hin. exact Hin.
Defined.

Lemma form_of_posts_key_and_params_witness :
  ("id" ≠ "key"
   ∧ [("id", "42"); ("action", "get")] ≡ₚ map_to_list poll_params
   ∧ [("action", "get"); ("id", "42")] ≡ₚ map_to_list poll_params)
  ∧ form_of (client_of []) poll_params !! "id" = Some ["42"]
  ∧ form_of (client_of []) {[ "key" := "other" ]} !! "key"
    = Some ["KEY"; "other"]
  ∧ form_in_order (client_of []) [("id", "42"); ("action", "get")]
    = form_of (client_of []) poll_params
  ∧ form_in_order (client_of []) [("action", "get"); ("id", "42")]
    = form_of (client_of []) poll_params.
Proof.
  assert (Hlist : map_to_list poll_params = [("action", "get"); ("id", "42")]
                  ∨ map_to_list poll_params = [("id", "42"); ("action", "get")]).
  { vm_compute. auto. }
  assert (H1 : [("id", "42"); ("action", "get")] ≡ₚ map_to_list poll_params).
  { destruct Hlist as [-> | ->]; [apply perm_swap | reflexivity]. }
  assert (H2 : [("action", "get"); ("id", "42")] ≡ₚ map_to_list poll_params).
  { destruct Hlist as [-> | ->]; [reflexivity | apply perm_swap]. }
  split; [split; [discriminate | split; assumption] |].
  split; [| split; [| split]].
  - exact (proj2 (proj2 (form_of_posts_key_and_params (client_of []) poll_params))
             "id" ltac:(discriminate)).
  - exact (proj1 (proj2 (form_of_posts_key_and_params (client_of [])
                    {[ "key" := "other" ]}))).
  - exact (proj1 (form_of_posts_key_and_params (client_of []) poll_params) _ H1).
  - exact (proj1 (form_of_posts_key_and_params (client_of []) poll_params) _ H2).
Defined.


Lemma apiRequest_total_pause_witness :
  1 > 0
  ∧ ∃ k : nat,
      (1 <= k)%nat ∧ Z.of_nat k <= 1 ∧
      sleeps (snd (apiRequest (parser := accept_all) (client_of ["OK|abc123"])
                     ResultURL poll_params 5 1 []))
      = replicate k (5 * Time.Second).
Proof.
  split; [lia |].
  destruct (apiRequest_total_pause (parser := accept_all)
              (client_of ["OK|abc123"]) ResultURL poll_params 5 1 [])
    as (k & Htr & Hle & Hpos & Hsleeps & _).
  exists k. split; [apply Hpos; lia |]. split; [lia |].
  rewrite Htr. exact Hsleeps.
Defined.
